(** * Weaver.X: remote spreadsheet commands and staged-mutation confirmation

    A shallow embedding of the client core of the repository:

    - [src/src/utils/sheetController.js]: the capability layer
      ([SheetController]), nine named operations over the spreadsheet
      widget reached through [window.luckysheet];
    - [App.jsx] (the React component): the command executor
      [executeUICommand], the queue poller [pollUICommands], the response
      dispatcher inside [handleSendMessage], and the three confirmation
      handlers [handleConfirmOverwrite], [handleConfirmSaveAs],
      [handleConfirmCancel].

    Definitions come first (Part I), theorems after (Part II). *)

From Stdlib Require Import ZArith Bool Lia PeanoNat.
From Stdlib Require Import Strings.Ascii Strings.String Numbers.DecimalString.
From Stdlib Require Import Lists.List.
Import ListNotations.

Local Open Scope string_scope.
Local Open Scope list_scope.

#[local] Set Warnings "-register-all".

(* ===================================================================== *)
(** * Part I. Definitions                                                 *)
(* ===================================================================== *)

(** ** JavaScript values, as far as the code inspects them

    A JS string is a Rocq [string], one character per code unit.  The
    message literals of the source are kept byte for byte (UTF-8); their
    length is never taken.  A JS number is an integer ([PNum]) or [PNaN]:
    the model has no fractional numbers and no infinities. *)

Module Js.

Inductive Prim : Type :=
| PUndef
| PNull
| PBool (b : bool)
| PNum (n : Z)
| PNaN
| PStr (s : string).

(** A cell of the grid as [getSheetData] hands it out: an object with the
    fields [v] (value) and [m] (display text), an absent field reading
    [PUndef]; or a bare primitive, [Bare PNull] being the empty cell. *)
Record CellObj : Type := { cell_v : Prim; cell_m : Prim }.

Inductive Val : Type :=
| Bare (p : Prim)
| Obj (o : CellObj).

Definition Grid : Type := list (list Val).

(** The result of ToNumber: [None] is NaN. *)
Definition Num : Type := option Z.

Definition prim_eq_dec (x y : Prim) : {x = y} + {x <> y}.
Proof.
  decide equality; auto using Z.eq_dec, bool_dec, string_dec.
Defined.

(** ToBoolean. *)
Definition truthyP (p : Prim) : bool :=
  match p with
  | PUndef | PNull | PNaN => false
  | PBool b => b
  | PNum n => negb (n =? 0)%Z
  | PStr s => negb (s =? EmptyString)
  end.

Definition truthy (x : Val) : bool :=
  match x with
  | Bare p => truthyP p
  | Obj _ => true
  end.

(** [x === undefined || x === null]. *)
Definition nullishP (p : Prim) : bool :=
  match p with
  | PUndef | PNull => true
  | _ => false
  end.

Definition nullish (x : Val) : bool :=
  match x with
  | Bare p => nullishP p
  | Obj _ => false
  end.

(** [cell?.v] and [cell?.m]: a primitive (null included) has neither. *)
Definition field_v (cell : Val) : Prim :=
  match cell with
  | Obj o => cell_v o
  | Bare _ => PUndef
  end.

Definition field_m (cell : Val) : Prim :=
  match cell with
  | Obj o => cell_m o
  | Bare _ => PUndef
  end.

(** [row?.[c]]: reading past the end of an array gives [undefined]. *)
Definition at_index (row : list Val) (c : nat) : Val :=
  nth c row (Bare PUndef).

Definition string_of_Z (n : Z) : string :=
  NilZero.string_of_int (Z.to_int n).

Definition string_of_nat (n : nat) : string :=
  string_of_Z (Z.of_nat n).

(** ToString on primitives; integers print in decimal. *)
Definition toStringP (p : Prim) : string :=
  match p with
  | PUndef => "undefined"
  | PNull => "null"
  | PBool true => "true"
  | PBool false => "false"
  | PNum n => string_of_Z n
  | PNaN => "NaN"
  | PStr s => s
  end.

Definition object_Object : string := "[object Object]".

(** [String(x)]: a plain object prints as [[object Object]]. *)
Definition toString (x : Val) : string :=
  match x with
  | Bare p => toStringP p
  | Obj _ => object_Object
  end.

(** White space that StringToNumber and [trim] strip (the ASCII part). *)
Definition is_space (c : ascii) : bool :=
  let n := nat_of_ascii c in
  (((9 <=? n) && (n <=? 13)) || (n =? 32))%nat.

Fixpoint drop_spaces (l : list ascii) : list ascii :=
  match l with
  | [] => []
  | c :: rest => if is_space c then drop_spaces rest else l
  end.

Definition trim (s : string) : string :=
  string_of_list_ascii
    (rev (drop_spaces (rev (drop_spaces (list_ascii_of_string s))))).

Definition digit_of (c : ascii) : option Z :=
  let n := nat_of_ascii c in
  if ((48 <=? n) && (n <=? 57))%nat then Some (Z.of_nat (n - 48)) else None.

Fixpoint digits_value (acc : Z) (l : list ascii) : Num :=
  match l with
  | [] => Some acc
  | c :: rest =>
      match digit_of c with
      | Some d => digits_value (10 * acc + d)%Z rest
      | None => None
      end
  end.

Definition unsigned_value (l : list ascii) : Num :=
  match l with
  | [] => None
  | _ => digits_value 0%Z l
  end.

(** StringToNumber on the integer fragment: blank text is 0, an optionally
    signed run of decimal digits is its value, anything else is NaN.  (Text
    denoting a fraction, an exponent, a radix literal or Infinity has no
    counterpart among the integers of this model and reads as NaN here.) *)
Definition number_of_string (s : string) : Num :=
  match list_ascii_of_string (trim s) with
  | [] => Some 0%Z
  | "-"%char :: rest => option_map Z.opp (unsigned_value rest)
  | "+"%char :: rest => unsigned_value rest
  | l => unsigned_value l
  end.

(** ToNumber. *)
Definition toNumberP (p : Prim) : Num :=
  match p with
  | PUndef => None
  | PNull => Some 0%Z
  | PBool true => Some 1%Z
  | PBool false => Some 0%Z
  | PNum n => Some n
  | PNaN => None
  | PStr s => number_of_string s
  end.

(** [Number(x)]: an object goes through its string form. *)
Definition toNumber (x : Val) : Num :=
  match x with
  | Bare p => toNumberP p
  | Obj _ => number_of_string object_Object
  end.

(** [a < b], [a > b] and [a == b] on numbers: false when either is NaN. *)
Definition num_lt (a b : Num) : bool :=
  match a, b with
  | Some x, Some y => (x <? y)%Z
  | _, _ => false
  end.

Definition num_gt (a b : Num) : bool := num_lt b a.

Definition num_eq (a b : Num) : bool :=
  match a, b with
  | Some x, Some y => (x =? y)%Z
  | _, _ => false
  end.

(** [a - 1] after ToNumber. *)
Definition minus_one (p : Prim) : Num :=
  option_map (fun n => (n - 1)%Z) (toNumberP p).

(** IsLooselyEqual ([==]) on primitives. *)
Definition loose_eqP (x y : Prim) : bool :=
  match x, y with
  | (PUndef | PNull), (PUndef | PNull) => true
  | (PUndef | PNull), _ => false
  | _, (PUndef | PNull) => false
  | PStr a, PStr b => a =? b
  | _, _ => num_eq (toNumberP x) (toNumberP y)
  end.

(** [x == y] with a primitive on the right: an object is first turned into
    its string form, and is never equal to null or undefined. *)
Definition loose_eq (x : Val) (y : Prim) : bool :=
  match x with
  | Bare p => loose_eqP p y
  | Obj _ => if nullishP y then false else loose_eqP (PStr object_Object) y
  end.

(** [s === p] where [s] is known to be a string. *)
Definition strict_eq_string (s : string) (p : Prim) : bool :=
  match p with
  | PStr t => s =? t
  | _ => false
  end.

(** [s.includes(sub)]. *)
Fixpoint includes (s sub : string) : bool :=
  prefix sub s ||
  match s with
  | EmptyString => false
  | String _ rest => includes rest sub
  end.

(** [s.replace(pat, by)] with a string pattern: the first occurrence only. *)
Fixpoint replace_first (s pat by_ : string) : string :=
  if prefix pat s then by_ ++ substring (String.length pat) (String.length s - String.length pat) s
  else
    match s with
    | EmptyString => EmptyString
    | String c rest => String c (replace_first rest pat by_)
    end.

(** Default parameter value: used exactly when the argument is [undefined]. *)
Definition default (d x : Prim) : Prim :=
  match x with
  | PUndef => d
  | _ => x
  end.

(** The double quote character, for the messages that contain it. *)
Definition dquote : string := String (ascii_of_nat 34) EmptyString.

End Js.

(** ** The capability layer: [src/src/utils/sheetController.js]

    Every capability reads the widget once ([getLuckysheet], then
    [getSheetData]) and afterwards only writes to it.  It is embedded as a
    function from that reading and its parameters to the list of widget
    calls it issues, in order, and the result record it returns.  The
    widget's own methods belong to the hosting spreadsheet library; they
    are taken not to throw. *)

Module SheetController.
Import Js.

(** [{ success, message }] or [{ success, error }]. *)
Record ExecutionResult : Type :=
  { success : bool; message : option string; error : option string }.

Definition succeeded (msg : string) : ExecutionResult :=
  {| success := true; message := Some msg; error := None |}.

Definition failed (err : string) : ExecutionResult :=
  {| success := false; message := None; error := Some err |}.

(** [window.luckysheet] as the capabilities see it: what [getSheetData]
    returns, [None] when it returns null. *)
Record Luckysheet : Type := { getSheetData : option Grid }.

(** The object handed to [setCellValue]: only the fields that were set. *)
Record CellStyle : Type :=
  { bl : option Z; fc : option Prim; bg : option Prim }.

(** What [styleMap[outerStyle] || 2] can evaluate to: a weight, or a member
    that the object literal inherits from [Object.prototype]. *)
Inductive BorderStyle : Type :=
| Weight (n : Z)
| Inherited (name : string).

Record BorderValue : Type :=
  { rangeType : string;
    borderType : string;
    borderStyle : BorderStyle;
    borderColor : string }.

(** The calls a capability makes on the widget.  [setCellValue] is always
    called with the option [{ isRefresh: false }]. *)
Inductive SheetCall : Type :=
| setCellValue (r c : nat) (value : CellStyle)
| refresh
| setFrozen (kind : string) (row_focus column_focus : Num)
| setColumnWidth (columns : list nat) (width : nat)
| setRangeShow (row column : Z * Z)
| setBorderInfo (value : BorderValue)
| hideRow (rows : list nat)
| showRow (rows : list nat)
| orderByRow (col : nat) (isAsc : Prim).

Definition Outcome : Type := (list SheetCall * ExecutionResult)%type.

Definition Sheet_not_available : Outcome := ([], failed "Sheet not available").
Definition No_data : Outcome := ([], failed "No data").

(** [cell?.v || cell?.m || cell], the text a header cell is matched by. *)
Definition headerCellValue (cell : Val) : Val :=
  if truthyP (field_v cell) then Bare (field_v cell)
  else if truthyP (field_m cell) then Bare (field_m cell)
  else cell.

(** The column search, written out three times in the source
    ([setConditionalFormat], [hideRowsWhere], [sortByColumn]):
    [for (c = 0; c < headerRow.length; c++)] with a [break] at the first
    cell whose [String(cellValue) === columnName].  [None] is the source's
    [colIndex === -1]. *)
Fixpoint findColumnFrom (c : nat) (headerRow : list Val) (columnName : Prim)
  : option nat :=
  match headerRow with
  | [] => None
  | cell :: rest =>
      if strict_eq_string (toString (headerCellValue cell)) columnName
      then Some c
      else findColumnFrom (S c) rest columnName
  end.

Definition findColumn (headerRow : list Val) (columnName : Prim) : option nat :=
  findColumnFrom 0 headerRow columnName.

Definition column_not_found (columnName : Prim) : Outcome :=
  ([], failed ("找不到列: " ++ toStringP columnName)).

(** The data rows with their row numbers: [for (r = 1; r < data.length; r++)]. *)
Definition dataRows (data : Grid) : list (nat * list Val) :=
  combine (seq 1 (List.length (tl data))) (tl data).

(** *** setHeaderStyle *)
Definition setHeaderStyle (sheet : option Luckysheet) (bold bgColor : Prim)
  : Outcome :=
  let bold := default (PBool true) bold in
  let bgColor := default (PStr "#e8e8e8") bgColor in
  match sheet with
  | None => Sheet_not_available
  | Some sheet =>
      match getSheetData sheet with
      | None | Some [] => No_data
      | Some (headerRow :: _) =>
          let colCount := List.length headerRow in
          (flat_map
             (fun c =>
                (if truthyP bold
                 then [setCellValue 0 c {| bl := Some 1%Z; fc := None; bg := None |}]
                 else []) ++
                (if truthyP bgColor
                 then [setCellValue 0 c {| bl := None; fc := None; bg := Some bgColor |}]
                 else []))
             (seq 0 colCount) ++ [refresh],
           succeeded ("已设置表头样式: 加粗=" ++ toStringP bold ++
                      ", 背景色=" ++ toStringP bgColor))
      end
  end.

(** *** freezeColumns, freezeRows *)
Definition freezeColumns (sheet : option Luckysheet) (count : Prim) : Outcome :=
  let count := default (PNum 1) count in
  match sheet with
  | None => Sheet_not_available
  | Some _ =>
      ([setFrozen "rangeBoth" (Some 0%Z) (minus_one count)],
       succeeded ("已冻结前 " ++ toStringP count ++ " 列"))
  end.

Definition freezeRows (sheet : option Luckysheet) (count : Prim) : Outcome :=
  let count := default (PNum 1) count in
  match sheet with
  | None => Sheet_not_available
  | Some _ =>
      ([setFrozen "rangeRow" (minus_one count) (Some 0%Z)],
       succeeded ("已冻结前 " ++ toStringP count ++ " 行"))
  end.

(** *** autoFitColumnWidth *)

(** [String(cell?.v || cell?.m || '').length * 10 + 20]. *)
Definition textWidth (cell : Val) : nat :=
  let value :=
    if truthyP (field_v cell) then field_v cell
    else if truthyP (field_m cell) then field_m cell
    else PStr EmptyString in
  String.length (toStringP value) * 10 + 20.

(** The inner loop: [maxWidth] starts at 50 and, for each of the first
    [Math.min(data.length, 100)] rows, becomes
    [Math.max(maxWidth, Math.min(textWidth, 300))]. *)
Definition maxWidth (data : Grid) (c : nat) : nat :=
  fold_left
    (fun maxWidth row => Nat.max maxWidth (Nat.min (textWidth (at_index row c)) 300))
    (firstn 100 data) 50.

Definition autoFitColumnWidth (sheet : option Luckysheet) : Outcome :=
  match sheet with
  | None => Sheet_not_available
  | Some sheet =>
      match getSheetData sheet with
      | None | Some [] => No_data
      | Some ((headerRow :: _) as data) =>
          let colCount := List.length headerRow in
          (map (fun c => setColumnWidth [c] (maxWidth data c)) (seq 0 colCount)
             ++ [refresh],
           succeeded "已自动调整所有列宽")
      end
  end.

(** *** setConditionalFormat *)

(** [cell?.v ?? cell?.m ?? cell]. *)
Definition cellValue (cell : Val) : Val :=
  if negb (nullishP (field_v cell)) then Bare (field_v cell)
  else if negb (nullishP (field_m cell)) then Bare (field_m cell)
  else cell.

(** The [switch (operator)]; no case, no match. *)
Definition matches (operator : Prim) (cellValue : Val) (value : Prim) : bool :=
  match operator with
  | PStr op =>
      if op =? "<" then num_lt (toNumber cellValue) (toNumberP value)
      else if op =? ">" then num_gt (toNumber cellValue) (toNumberP value)
      else if (op =? "=") || (op =? "==") then loose_eq cellValue value
      else if op =? "contains"
           then includes (toString cellValue) (toStringP value)
      else false
  | _ => false
  end.

Definition conditionalStyle (color bgColor : Prim) : CellStyle :=
  {| bl := None;
     fc := if truthyP color then Some color else None;
     bg := if truthyP bgColor then Some bgColor else None |}.

Definition matchingRows (data : Grid) (colIndex : nat) (operator value : Prim)
  : list nat :=
  map fst
    (filter (fun '(r, row) => matches operator (cellValue (at_index row colIndex)) value)
       (dataRows data)).

Definition setConditionalFormat (sheet : option Luckysheet)
    (columnName operator value color bgColor : Prim) : Outcome :=
  let color := default PNull color in
  let bgColor := default PNull bgColor in
  match sheet with
  | None => Sheet_not_available
  | Some sheet =>
      match getSheetData sheet with
      | None | Some [] => No_data
      | Some ((headerRow :: _) as data) =>
          match findColumn headerRow columnName with
          | None => column_not_found columnName
          | Some colIndex =>
              let rows := matchingRows data colIndex operator value in
              let matchCount := List.length rows in
              (map (fun r => setCellValue r colIndex (conditionalStyle color bgColor)) rows
                 ++ [refresh],
               succeeded ("已对 " ++ string_of_nat matchCount ++ " 个单元格应用条件格式"))
          end
      end
  end.

(** *** setBorder *)

(** The names every object literal inherits from [Object.prototype]; each
    reads as a truthy member. *)
Definition Object_prototype_names : list string :=
  [ "constructor"; "__defineGetter__"; "__defineSetter__"; "hasOwnProperty";
    "__lookupGetter__"; "__lookupSetter__"; "isPrototypeOf";
    "propertyIsEnumerable"; "toString"; "valueOf"; "__proto__";
    "toLocaleString" ].

(** [styleMap[key]] for [const styleMap = { thin: 1, medium: 2, thick: 3 }];
    [None] is [undefined]. *)
Definition styleMap (key : string) : option BorderStyle :=
  if key =? "thin" then Some (Weight 1)
  else if key =? "medium" then Some (Weight 2)
  else if key =? "thick" then Some (Weight 3)
  else if existsb (String.eqb key) Object_prototype_names
       then Some (Inherited key)
  else None.

(** [a || 2]: the three weights and every inherited member are truthy. *)
Definition or_2 (a : option BorderStyle) : BorderStyle :=
  match a with
  | Some x => x
  | None => Weight 2
  end.

Definition setBorder (sheet : option Luckysheet) (type outerStyle innerStyle : Prim)
  : Outcome :=
  let type := default (PStr "all") type in
  let outerStyle := default (PStr "medium") outerStyle in
  let innerStyle := default (PStr "thin") innerStyle in
  match sheet with
  | None => Sheet_not_available
  | Some sheet =>
      match getSheetData sheet with
      | None | Some [] => No_data
      | Some ((headerRow :: _) as data) =>
          let rowCount := List.length data in
          let colCount := List.length headerRow in
          let borderValue :=
            {| rangeType := "range";
               borderType :=
                 if strict_eq_string "outer" type then "border-outside"
                 else if strict_eq_string "inner" type then "border-inside"
                 else "border-all";
               borderStyle := or_2 (styleMap (toStringP outerStyle));
               borderColor := "#000000" |} in
          ([ setRangeShow (0, Z.of_nat rowCount - 1)%Z (0, Z.of_nat colCount - 1)%Z;
             setBorderInfo borderValue ],
           succeeded ("已添加" ++ toStringP type ++ "边框"))
      end
  end.

(** *** hideRowsWhere *)

(** [cell?.v ?? cell?.m ?? cell ?? '']. *)
Definition cellValue_or_empty (cell : Val) : Val :=
  if nullish (cellValue cell) then Bare (PStr EmptyString) else cellValue cell.

Definition rowsToHide (data : Grid) (colIndex : nat) (contains : Prim) : list nat :=
  map fst
    (filter
       (fun '(r, row) =>
          includes (toString (cellValue_or_empty (at_index row colIndex)))
                   (toStringP contains))
       (dataRows data)).

Definition hideRowsWhere (sheet : option Luckysheet) (columnName contains : Prim)
  : Outcome :=
  match sheet with
  | None => Sheet_not_available
  | Some sheet =>
      match getSheetData sheet with
      | None | Some [] => No_data
      | Some ((headerRow :: _) as data) =>
          match findColumn headerRow columnName with
          | None => column_not_found columnName
          | Some colIndex =>
              let rows := rowsToHide data colIndex contains in
              ((if (0 <? List.length rows)%nat then [hideRow rows] else []),
               succeeded ("已隐藏 " ++ string_of_nat (List.length rows) ++ " 行包含" ++
                          dquote ++ toStringP contains ++ dquote ++ "的数据"))
          end
      end
  end.

(** *** showAllRows

    There is no [!data] guard here: [data.length] on a null [data] throws
    a TypeError inside the [try], and the [catch] returns its message. *)
Definition showAllRows (sheet : option Luckysheet) : Outcome :=
  match sheet with
  | None => Sheet_not_available
  | Some sheet =>
      match getSheetData sheet with
      | None => ([], failed "Cannot read properties of null (reading 'length')")
      | Some data =>
          ([showRow (seq 0 (List.length data))], succeeded "已显示所有行")
      end
  end.

(** *** sortByColumn *)
Definition sortByColumn (sheet : option Luckysheet) (columnName ascending : Prim)
  : Outcome :=
  let ascending := default (PBool true) ascending in
  match sheet with
  | None => Sheet_not_available
  | Some sheet =>
      match getSheetData sheet with
      | None | Some [] => No_data
      | Some ((headerRow :: _) as data) =>
          match findColumn headerRow columnName with
          | None => column_not_found columnName
          | Some colIndex =>
              let lastColumn :=
                match headerRow with
                | [] => 1%Z
                | _ => Z.of_nat (List.length headerRow)
                end in
              ([ setRangeShow (1, Z.of_nat (List.length data) - 1)%Z (0, lastColumn - 1)%Z;
                 orderByRow colIndex ascending ],
               succeeded ("已按" ++ dquote ++ toStringP columnName ++ dquote ++
                          (if truthyP ascending then "升序" else "降序") ++ "排序"))
          end
      end
  end.

End SheetController.

(** ** JSON payloads, as far as the client inspects them *)

Module Json.
Import Js.

Inductive Json : Type :=
| JNull
| JBool (b : bool)
| JNum (n : Z)
| JStr (s : string)
| JArr (items : list Json)
| JObj (fields : list (string * Json)).

(** An object, as its own enumerable entries in enumeration order. *)
Definition Row : Type := list (string * Json).

(** [row[col]] on own properties; [None] is [undefined]. *)
Fixpoint get (row : Row) (key : string) : option Json :=
  match row with
  | [] => None
  | (k, x) :: rest => if k =? key then Some x else get rest key
  end.

Definition keys (row : Row) : list string := map fst row.

Definition truthyJ (j : Json) : bool :=
  match j with
  | JNull => false
  | JBool b => b
  | JNum n => negb (n =? 0)%Z
  | JStr s => negb (s =? EmptyString)
  | JArr _ | JObj _ => true
  end.

(** [parts.join(sep)]. *)
Fixpoint join (sep : string) (parts : list string) : string :=
  match parts with
  | [] => EmptyString
  | [p] => p
  | p :: rest => p ++ sep ++ join sep rest
  end.

(** ToString: an array prints its items joined by commas, a null item as
    the empty string; an object prints as [[object Object]]. *)
Fixpoint toStringJ (j : Json) : string :=
  match j with
  | JNull => "null"
  | JBool true => "true"
  | JBool false => "false"
  | JNum n => string_of_Z n
  | JStr s => s
  | JArr items =>
      join ","
        (map (fun x => match x with JNull => EmptyString | _ => toStringJ x end) items)
  | JObj _ => object_Object
  end.

Definition hex_digit (n : nat) : ascii :=
  ascii_of_nat (if (n <? 10)%nat then 48 + n else 87 + n).

(** QuoteJSONString, one code unit at a time. *)
Definition escape (c : ascii) : string :=
  let n := nat_of_ascii c in
  if (n =? 34)%nat then String "\"%char dquote
  else if (n =? 92)%nat then "\\"
  else if (n =? 8)%nat then "\b"
  else if (n =? 9)%nat then "\t"
  else if (n =? 10)%nat then "\n"
  else if (n =? 12)%nat then "\f"
  else if (n =? 13)%nat then "\r"
  else if (n <? 32)%nat
       then "\u00" ++ String (hex_digit (n / 16)) (String (hex_digit (n mod 16)) EmptyString)
  else String c EmptyString.

Definition quote (s : string) : string :=
  dquote ++ String.concat EmptyString (map escape (list_ascii_of_string s)) ++ dquote.

(** [JSON.stringify(j)], without indentation. *)
Fixpoint stringify (j : Json) : string :=
  match j with
  | JNull => "null"
  | JBool true => "true"
  | JBool false => "false"
  | JNum n => string_of_Z n
  | JStr s => quote s
  | JArr items => ("[" ++ join "," (map stringify items) ++ "]")%string
  | JObj fields =>
      ("{" ++
       join "," (map (fun '(k, x) => (quote k ++ ":" ++ stringify x)%string) fields) ++
       "}")%string
  end.

End Json.

(** ** The React component [App]: state, network and widget *)

Module App.
Import Js SheetController Json.

(** A UI command as the executor reads it: the action and the parameters
    are properties of one flat object; an absent property is [PUndef]. *)
Record Command : Type :=
  { action : Prim;
    bold : Prim;
    bgColor : Prim;
    count : Prim;
    column : Prim;
    operator : Prim;
    value : Prim;
    color : Prim;
    type : Prim;
    outerStyle : Prim;
    innerStyle : Prim;
    contains : Prim;
    ascending : Prim }.

(** The nine names of the [switch] in [executeUICommand]. *)
Definition capabilityNames : list string :=
  [ "setHeaderStyle"; "freezeColumns"; "freezeRows"; "autoFitColumnWidth";
    "setConditionalFormat"; "setBorder"; "hideRowsWhere"; "showAllRows";
    "sortByColumn" ].

(** *** Component state ([useState]) *)

Record Table : Type := { name : string; rows : Z; columns : Z }.

Record CellEntry : Type := { r : nat; c : nat; v : Json; m : string }.

Record SheetView : Type :=
  { viewName : string; celldata : list CellEntry; row : nat; column_ : nat }.

Record Message : Type :=
  { role : string; content : string; loading : bool; responseType : option string }.

(** [confirmData]: [{ temp_table, answer }]. *)
Record ConfirmationRequest : Type := { temp_table : string; answer : string }.

Record AppState : Type :=
  { activeTab : option string;
    tables : list Table;
    sheetData : list SheetView;
    messages : list Message;
    inputValue : string;
    isLoading : bool;
    showConfirmModal : bool;
    confirmData : option ConfirmationRequest;
    saveAsName : string }.

Definition Sheet1 : SheetView :=
  {| viewName := "Sheet1"; celldata := []; row := 50; column_ := 26 |}.

Definition initialState : AppState :=
  {| activeTab := None;
     tables := [];
     sheetData := [Sheet1];
     messages :=
       [ {| role := "assistant";
            content := "欢迎使用 AI-Sheet Pro！请上传数据文件开始分析。";
            loading := false;
            responseType := None |} ];
     inputValue := EmptyString;
     isLoading := false;
     showConfirmModal := false;
     confirmData := None;
     saveAsName := EmptyString |}.

(** The state setters. *)
Definition setActiveTab (x : option string) (s : AppState) : AppState :=
  {| activeTab := x; tables := tables s; sheetData := sheetData s;
     messages := messages s; inputValue := inputValue s; isLoading := isLoading s;
     showConfirmModal := showConfirmModal s; confirmData := confirmData s;
     saveAsName := saveAsName s |}.

Definition setTables (x : list Table) (s : AppState) : AppState :=
  {| activeTab := activeTab s; tables := x; sheetData := sheetData s;
     messages := messages s; inputValue := inputValue s; isLoading := isLoading s;
     showConfirmModal := showConfirmModal s; confirmData := confirmData s;
     saveAsName := saveAsName s |}.

Definition setSheetData (x : list SheetView) (s : AppState) : AppState :=
  {| activeTab := activeTab s; tables := tables s; sheetData := x;
     messages := messages s; inputValue := inputValue s; isLoading := isLoading s;
     showConfirmModal := showConfirmModal s; confirmData := confirmData s;
     saveAsName := saveAsName s |}.

(** [setMessages(prev => f(prev))]. *)
Definition setMessages (f : list Message -> list Message) (s : AppState) : AppState :=
  {| activeTab := activeTab s; tables := tables s; sheetData := sheetData s;
     messages := f (messages s); inputValue := inputValue s; isLoading := isLoading s;
     showConfirmModal := showConfirmModal s; confirmData := confirmData s;
     saveAsName := saveAsName s |}.

Definition setInputValue (x : string) (s : AppState) : AppState :=
  {| activeTab := activeTab s; tables := tables s; sheetData := sheetData s;
     messages := messages s; inputValue := x; isLoading := isLoading s;
     showConfirmModal := showConfirmModal s; confirmData := confirmData s;
     saveAsName := saveAsName s |}.

Definition setIsLoading (x : bool) (s : AppState) : AppState :=
  {| activeTab := activeTab s; tables := tables s; sheetData := sheetData s;
     messages := messages s; inputValue := inputValue s; isLoading := x;
     showConfirmModal := showConfirmModal s; confirmData := confirmData s;
     saveAsName := saveAsName s |}.

Definition setShowConfirmModal (x : bool) (s : AppState) : AppState :=
  {| activeTab := activeTab s; tables := tables s; sheetData := sheetData s;
     messages := messages s; inputValue := inputValue s; isLoading := isLoading s;
     showConfirmModal := x; confirmData := confirmData s;
     saveAsName := saveAsName s |}.

Definition setConfirmData (x : option ConfirmationRequest) (s : AppState) : AppState :=
  {| activeTab := activeTab s; tables := tables s; sheetData := sheetData s;
     messages := messages s; inputValue := inputValue s; isLoading := isLoading s;
     showConfirmModal := showConfirmModal s; confirmData := x;
     saveAsName := saveAsName s |}.

Definition setSaveAsName (x : string) (s : AppState) : AppState :=
  {| activeTab := activeTab s; tables := tables s; sheetData := sheetData s;
     messages := messages s; inputValue := inputValue s; isLoading := isLoading s;
     showConfirmModal := showConfirmModal s; confirmData := confirmData s;
     saveAsName := x |}.

(** Truthiness of a string-or-null state variable. *)
Definition present (x : option string) : bool :=
  match x with
  | Some s => negb (s =? EmptyString)
  | None => false
  end.

(** [x || fallback] on a string-or-absent property. *)
Definition or_else (x : option string) (fallback : string) : string :=
  if present x then match x with Some s => s | None => fallback end else fallback.

Definition assistant (text : string) : Message :=
  {| role := "assistant"; content := text; loading := false; responseType := None |}.

(** [prev => [...prev, msg]] and [prev => prev.filter(m => !m.isLoading)]. *)
Definition append (msg : Message) (prev : list Message) : list Message :=
  prev ++ [msg].

Definition notLoading (prev : list Message) : list Message :=
  filter (fun m => negb (loading m)) prev.

(** *** The backend's HTTP surface *)

Inductive Request : Type :=
| GET_ui_pending
| GET_tables
| POST_data_view (table_name : string) (offset limit : Z)
| POST_ai_query (query : string)
| POST_table_overwrite (source_table target_name : string)
| POST_table_rename (source_table target_name : string)
| DELETE_table (table_name : string).

Record PendingReply : Type := { pendingSuccess : bool; commands : list Command }.

Record TablesReply : Type :=
  { tablesSuccess : bool; tablesData : list (string * (Z * Z)) }.

(** [{ success, data: { columns, data } }]: [viewColumns] is
    [viewData.columns || []], [viewRows] is [viewData.data || []]. *)
Record ViewReply : Type :=
  { viewSuccess : bool; viewColumns : list string; viewRows : list Row }.

(** The [result] of a query: absent or null, a scalar, an array of row
    objects, or one object. *)
Inductive Result : Type :=
| NoResult
| Scalar (p : Prim)
| Rows (items : list Row)
| Object (fields : Row).

(** [data.data] of a successful query reply. *)
Record QueryPayload : Type :=
  { response_type : option string;
    payloadAnswer : option string;
    explanation : option string;
    result : Result;
    payloadTempTable : option string }.

Record QueryReply : Type :=
  { querySuccess : bool; queryData : QueryPayload; queryMessage : Prim }.

(** [{ success, message }] of overwrite, rename and delete. *)
Record ResolveReply : Type := { resolveSuccess : bool; resolveMessage : Prim }.

Definition ReplyOf (q : Request) : Type :=
  match q with
  | GET_ui_pending => PendingReply
  | GET_tables => TablesReply
  | POST_data_view _ _ _ => ViewReply
  | POST_ai_query _ => QueryReply
  | POST_table_overwrite _ _ => ResolveReply
  | POST_table_rename _ _ => ResolveReply
  | DELETE_table _ => ResolveReply
  end.

(** What [await fetch(...)] followed by [await res.json()] comes to:
    the parsed body, or a rejection (no connection, or a body that does
    not parse) with the error's message. *)
Inductive Fetched (A : Type) : Type :=
| Rejected (message : string)
| Replied (body : A).

Arguments Rejected {A} message.
Arguments Replied {A} body.

(** The world outside the component: a backend answering requests, with a
    state of its own, and the spreadsheet widget behind [window.luckysheet],
    which reacts to the calls of the capability layer. *)
Class Host : Type :=
  { Backend : Type;
    serve : forall q : Request, Backend -> Fetched (ReplyOf q) * Backend;
    Widget : Type;
    getLuckysheet : Widget -> option Luckysheet;
    perform : SheetCall -> Widget -> Widget }.

(** *** Observable effects *)

Inductive LogLine : Type :=
| UI_Command (cmd : Command)            (* '[UI Command]', command *)
| UI_Result (res : ExecutionResult)     (* '[UI Result]', result *)
| UI_Executor (n : nat)                 (* `[UI Executor] 收到 ${n} 条命令` *)
| Unknown_UI_command (action : Prim)    (* '未知的 UI 命令:', command.action *)
| Temp_table_intercepted (t : string)   (* '拦截到临时表:', temp_table *)
| Load_tables_failed (message : string) (* '加载表失败', e *)
| Load_data_failed (message : string).  (* '加载数据失败', e *)

Inductive Event : Type :=
| console_log (line : LogLine)
| console_warn (line : LogLine)
| console_error (line : LogLine)
| luckysheet (call : SheetCall)
| fetch (q : Request)
| alert (text : string).

(** *** Effects

    A handler runs against a [World]: the component state, the backend, the
    widget, and the trace of what it did that can be observed from outside.
    Handlers are [async]; each is embedded as one uninterrupted run, a call
    that the source does not [await] being run in place.  A handler reads
    the state variables it closes over from the state at its start. *)

Definition State (S A : Type) : Type := S -> A * S.

Definition ret {S A : Type} (a : A) : State S A := fun w => (a, w).

Definition bind {S A B : Type} (c : State S A) (k : A -> State S B) : State S B :=
  fun w => let (a, w') := c w in k a w'.

Declare Scope action_scope.
Delimit Scope action_scope with action.

Notation "x <- c ;; k" := (bind c (fun x => k))
  (at level 61, c at next level, right associativity) : action_scope.
Notation "c ;; k" := (bind c (fun _ => k))
  (at level 61, right associativity) : action_scope.

Local Open Scope action_scope.

Fixpoint forEach {S A : Type} (items : list A) (body : A -> State S unit)
  : State S unit :=
  match items with
  | [] => ret tt
  | x :: rest => body x ;; forEach rest body
  end.

Definition newline : string := String (ascii_of_nat 10) EmptyString.

(** [items.map((x, i) => ...)]: the items with their indices. *)
Definition indexed {A : Type} (items : list A) : list (nat * A) :=
  combine (seq 0 (List.length items)) items.

(** The cells [loadTableData] and [renderResult] both build: one header
    cell per column in row 0, then for data row [r] one cell in row [r + 1]
    per column whose value is neither null nor undefined. *)
Definition headerCells (columns : list string) : list CellEntry :=
  map (fun '(c, col) => {| r := 0; c := c; v := JStr col; m := col |})
      (indexed columns).

Definition rowCells (columns : list string) (r : nat) (row : Row) : list CellEntry :=
  flat_map
    (fun '(c, col) =>
       match get row col with
       | None | Some JNull => []
       | Some val => [ {| r := r + 1; c := c; v := val; m := toStringJ val |} ]
       end)
    (indexed columns).

Definition dataCells (columns : list string) (rows : list Row) : list CellEntry :=
  flat_map (fun '(r, row) => rowCells columns r row) (indexed rows).

Definition sheetView (name : string) (columns : list string) (rows : list Row)
    (celldata : list CellEntry) : SheetView :=
  {| viewName := name;
     celldata := celldata;
     row := Nat.max 50 (List.length rows + 10);
     column_ := Nat.max 26 (List.length columns + 5) |}.

(** [data.data.answer || data.data.explanation || ''], the [answer] of the
    dispatcher. *)
Definition answerOf (p : QueryPayload) : string :=
  or_else (payloadAnswer p) (or_else (explanation p) EmptyString).

(** [text || fallback] on a string. *)
Definition or_text (text fallback : string) : string :=
  if text =? EmptyString then fallback else text.

(** The [switch (command.action)] of [executeUICommand]: the capability
    applied to the command's parameters, [None] for the [default] case. *)
Definition capabilityOf (command : Command) (sheet : option Luckysheet)
  : option Outcome :=
  match action command with
  | PStr a =>
      if a =? "setHeaderStyle"
      then Some (setHeaderStyle sheet (bold command) (bgColor command))
      else if a =? "freezeColumns" then Some (freezeColumns sheet (count command))
      else if a =? "freezeRows" then Some (freezeRows sheet (count command))
      else if a =? "autoFitColumnWidth" then Some (autoFitColumnWidth sheet)
      else if a =? "setConditionalFormat"
      then Some (setConditionalFormat sheet (column command) (operator command)
                   (value command) (color command) (bgColor command))
      else if a =? "setBorder"
      then Some (setBorder sheet (type command) (outerStyle command)
                   (innerStyle command))
      else if a =? "hideRowsWhere"
      then Some (hideRowsWhere sheet (column command) (contains command))
      else if a =? "showAllRows" then Some (showAllRows sheet)
      else if a =? "sortByColumn"
      then Some (sortByColumn sheet (column command) (ascending command))
      else None
  | _ => None
  end.

Section Client.
Context {host : Host}.

Record World : Type :=
  { app : AppState; backend : Backend; widget : Widget; trace : list Event }.

Definition M (A : Type) : Type := State World A.

Definition emit (e : Event) : M unit :=
  fun w =>
    (tt, {| app := app w; backend := backend w; widget := widget w;
            trace := trace w ++ [e] |}).

Definition update (f : AppState -> AppState) : M unit :=
  fun w =>
    (tt, {| app := f (app w); backend := backend w; widget := widget w;
            trace := trace w |}).

(** [await fetch(...)] and reading the body. *)
Definition request (q : Request) : M (Fetched (ReplyOf q)) :=
  fun w =>
    let (reply, b) := serve q (backend w) in
    (reply, {| app := app w; backend := b; widget := widget w;
               trace := trace w ++ [fetch q] |}).

(** One call on [window.luckysheet]. *)
Definition invoke (call : SheetCall) : M unit :=
  fun w =>
    (tt, {| app := app w; backend := backend w; widget := perform call (widget w);
            trace := trace w ++ [luckysheet call] |}).

Definition readSheet : M (option Luckysheet) :=
  fun w => (getLuckysheet (widget w), w).

(** *** executeUICommand

    The [try]/[catch] around the [switch] never fires: every capability
    catches its own errors. *)
Definition executeUICommand (command : Command) : M ExecutionResult :=
  emit (console_log (UI_Command command)) ;;
  sheet <- readSheet ;;
  match capabilityOf command sheet with
  | Some (calls, result) => forEach calls invoke ;; ret result
  | None =>
      emit (console_warn (Unknown_UI_command (action command))) ;;
      ret (failed ("未知命令: " ++ toStringP (action command)))
  end.

(** *** pollUICommands, one tick of the 500 ms interval *)
Definition pollUICommands : M unit :=
  res <- request GET_ui_pending ;;
  match res with
  | Replied data =>
      if pendingSuccess data && (0 <? List.length (commands data))%nat
      then
        emit (console_log (UI_Executor (List.length (commands data)))) ;;
        forEach (commands data)
          (fun cmd =>
             result <- executeUICommand cmd ;;
             emit (console_log (UI_Result result)))
      else ret tt
  | Rejected _ => ret tt
  end.

(** *** loadTableData *)
Definition loadTableData (tableName : string) : M unit :=
  res <- request (POST_data_view tableName 0 10000) ;;
  match res with
  | Replied data =>
      if viewSuccess data
      then
        let columns := viewColumns data in
        let rows := viewRows data in
        update (setActiveTab (Some tableName)) ;;
        update (setSheetData
                  [ sheetView tableName columns rows
                      (if (0 <? List.length columns)%nat
                       then headerCells columns ++ dataCells columns rows
                       else []) ])
      else ret tt
  | Rejected message => emit (console_error (Load_data_failed message))
  end.

(** *** loadTables; [activeTab] is the value the caller closes over

    The source does not await [loadTableData(tableList[0].name)] (line
    87): the request is started before [loadTables] returns, its response
    is handled whenever it arrives.  Here the load runs to completion in
    place, which fixes one order of arrival; what is stated of a caller
    that starts a further load afterwards is stated for the case where
    this one does not fire, that is, with a table active. *)
Definition loadTables (activeTab : option string) : M unit :=
  res <- request GET_tables ;;
  match res with
  | Replied data =>
      if tablesSuccess data
      then
        let tableList :=
          map (fun '(name, (rows, columns)) =>
                 {| name := name; rows := rows; columns := columns |})
              (tablesData data) in
        update (setTables tableList) ;;
        match tableList with
        | first :: _ =>
            if negb (present activeTab)
            then update (setActiveTab (Some (name first))) ;;
                 loadTableData (name first)
            else ret tt
        | [] => ret tt
        end
      else ret tt
  | Rejected message => emit (console_error (Load_tables_failed message))
  end.

(** *** The confirmation handlers *)

Definition handleConfirmOverwrite : M unit :=
  fun w0 =>
    let confirmData := confirmData (app w0) in
    let activeTab := activeTab (app w0) in
    match confirmData, activeTab with
    | Some confirm, Some tab =>
        if negb (present activeTab) then (tt, w0)
        else
          (res <- request (POST_table_overwrite (temp_table confirm) tab) ;;
           match res with
           | Replied data =>
               if resolveSuccess data
               then
                 update (setMessages
                           (append (assistant ("✅ 已覆盖表格 " ++ dquote ++ tab ++ dquote)))) ;;
                 update (setShowConfirmModal false) ;;
                 update (setConfirmData None) ;;
                 loadTables activeTab ;;
                 loadTableData tab
               else emit (alert ("覆盖失败: " ++ toStringP (resolveMessage data)))
           | Rejected _ => emit (alert "请求失败")
           end) w0
    | _, _ => (tt, w0)
    end.

Definition handleConfirmSaveAs : M unit :=
  fun w0 =>
    let confirmData := confirmData (app w0) in
    let activeTab := activeTab (app w0) in
    let saveAsName := saveAsName (app w0) in
    match confirmData with
    | Some confirm =>
        if saveAsName =? EmptyString then (tt, w0)
        else
          (res <- request (POST_table_rename (temp_table confirm) saveAsName) ;;
           match res with
           | Replied data =>
               if resolveSuccess data
               then
                 update (setMessages
                           (append (assistant ("✅ 已保存为新表 " ++ dquote ++ saveAsName ++ dquote)))) ;;
                 update (setShowConfirmModal false) ;;
                 update (setConfirmData None) ;;
                 loadTables activeTab ;;
                 update (setActiveTab (Some saveAsName)) ;;
                 loadTableData saveAsName
               else emit (alert ("保存失败: " ++ toStringP (resolveMessage data)))
           | Rejected _ => emit (alert "请求失败")
           end) w0
    | None => (tt, w0)
    end.

(** The [DELETE] is awaited inside an empty [catch]; its outcome is not
    looked at. *)
Definition handleConfirmCancel : M unit :=
  fun w0 =>
    match confirmData (app w0) with
    | Some confirm =>
        (_ <- request (DELETE_table (temp_table confirm)) ;;
         update (setMessages (append (assistant "🚫 已放弃操作"))) ;;
         update (setShowConfirmModal false) ;;
         update (setConfirmData None)) w0
    | None => (tt, w0)
    end.

(** *** renderResult, on the array of rows the dispatcher passes it *)
Definition renderResult (dataRows : list Row) : M unit :=
  let columns :=
    match dataRows with
    | first :: _ => keys first
    | [] => []
    end in
  if (List.length columns =? 0)%nat then ret tt
  else
    update (setSheetData
              [ sheetView "AI 结果" columns dataRows
                  (headerCells columns ++ dataCells columns dataRows) ]).

(** *** The response dispatcher: the [switch (responseType)] of
    [handleSendMessage] with the message it ends in.  Each branch yields
    the icon and the text of that message. *)

Definition entryLine (entry : string * Json) : string :=
  let (k, x) := entry in (k ++ ": " ++ toStringJ x)%string.

Definition entryLineJSON (entry : string * Json) : string :=
  let (k, x) := entry in
  (k ++ ": " ++
   match x with
   | JArr _ | JObj _ => stringify x
   | _ => toStringJ x
   end)%string.

Definition dispatchData (activeTab : option string) (p : QueryPayload)
    (answer : string) : M (string * string) :=
  let withoutTempTable : M (string * string) :=
    loadTables activeTab ;;
    match activeTab with
    | Some tab =>
        if present activeTab
        then loadTableData tab ;; ret ("✅", or_text answer "数据操作完成")
        else ret ("✅", or_text answer "数据操作完成")
    | None => ret ("✅", or_text answer "数据操作完成")
    end in
  match payloadTempTable p with
  | Some tempTable =>
      if present (payloadTempTable p)
      then
        emit (console_log (Temp_table_intercepted tempTable)) ;;
        update (setConfirmData (Some {| temp_table := tempTable; answer := answer |})) ;;
        update (setSaveAsName (replace_first tempTable "t_ai_temp_" "新表格_")) ;;
        update (setShowConfirmModal true) ;;
        ret ("✅", (answer ++ " (等待确认...)")%string)
      else withoutTempTable
  | None => withoutTempTable
  end.

Definition dispatchAnswer (activeTab : option string) (p : QueryPayload)
    (answer : string) : M (string * string) :=
  if negb (answer =? EmptyString) then ret ("💡", answer)
  else
    match result p with
    | NoResult => ret ("💡", "查询完成")
    | Scalar x =>
        ret ("💡", if nullishP x then "查询完成" else toStringP x)
    | Rows items =>
        match items with
        | [only] =>
            if (List.length (keys only) <=? 3)%nat
            then ret ("💡", join newline (map entryLine only))
            else
              renderResult items ;;
              ret ("💡", ("查询成功，返回 " ++ string_of_nat (List.length items) ++ " 条结果")%string)
        | _ =>
            renderResult items ;;
            ret ("💡", ("查询成功，返回 " ++ string_of_nat (List.length items) ++ " 条结果")%string)
        end
    | Object fields =>
        match get fields "status", get fields "message" with
        | Some (JStr status), Some message =>
            if (status =? "success") && truthyJ message
            then
              match activeTab with
              | Some tab =>
                  if present activeTab
                  then loadTableData tab ;; ret ("✅", toStringJ message)
                  else ret ("✅", toStringJ message)
              | None => ret ("✅", toStringJ message)
              end
            else ret ("💡", join newline (map entryLineJSON fields))
        | _, _ => ret ("💡", join newline (map entryLineJSON fields))
        end
    end.

Definition dispatchResponse (activeTab : option string) (p : QueryPayload) : M unit :=
  let responseType := or_else (response_type p) "answer" in
  let answer := answerOf p in
  shown <-
    (if responseType =? "clarify" then ret ("❓", answer)
     else if responseType =? "error" then ret ("❌", or_text answer "操作失败")
     else if responseType =? "data" then dispatchData activeTab p answer
     else if responseType =? "ui" then ret ("🎨", or_text answer "样式已更新")
     else dispatchAnswer activeTab p answer) ;;
  let (icon, resultText) := shown : string * string in
  update (setMessages
            (append {| role := "assistant";
                       content := icon ++ " " ++ resultText;
                       loading := false;
                       responseType := Some responseType |})).

(** *** handleSendMessage *)
Definition handleSendMessage : M unit :=
  fun w0 =>
    let inputValue := inputValue (app w0) in
    let activeTab := activeTab (app w0) in
    if (trim inputValue =? EmptyString) || isLoading (app w0) then (tt, w0)
    else
      (let userMessage := inputValue in
       update (setMessages
                 (append {| role := "user"; content := userMessage;
                            loading := false; responseType := None |})) ;;
       update (setInputValue EmptyString) ;;
       update (setIsLoading true) ;;
       update (setMessages
                 (append {| role := "assistant"; content := "⏳ AI 正在分析处理...";
                            loading := true; responseType := None |})) ;;
       res <- request (POST_ai_query userMessage) ;;
       match res with
       | Replied data =>
           update (setMessages notLoading) ;;
           if querySuccess data
           then dispatchResponse activeTab (queryData data)
           else update (setMessages
                          (append (assistant ("✗ " ++ toStringP (queryMessage data)))))
       | Rejected message =>
           update (setMessages
                     (fun prev => notLoading prev ++ [assistant ("✗ 请求失败: " ++ message)]))
       end ;;
       update (setIsLoading false)) w0.

End Client.

End App.

(** ** Notions the statements are phrased in

    These are not translations of source code: they name what the
    specification talks about (the clamp of a maximum, the text a column
    is looked up by, the two states of the confirmation machine, what a
    trace shows), to be compared with what the code computes. *)

Module Spec.
Import Js SheetController Json App.

(** A sheet handle whose [getSheetData] returns [data]. *)
Definition sheetOf (data : Grid) : option Luckysheet :=
  Some {| getSheetData := Some data |}.

(** [clamp(x, lo, hi)]. *)
Definition clamp (x lo hi : nat) : nat := Nat.max lo (Nat.min x hi).

(** The text widths observed in column [c] over the first 100 rows. *)
Definition observedWidths (data : Grid) (c : nat) : list nat :=
  map (fun row => textWidth (at_index row c)) (firstn 100 data).

(** A header cell's value-or-display-text, in the specification's words:
    the value if there is one, else the display text; a cell with neither
    has no text to be matched by. *)
Definition valueOrDisplayText (cell : Val) : option string :=
  if truthyP (field_v cell) then Some (toStringP (field_v cell))
  else if truthyP (field_m cell) then Some (toStringP (field_m cell))
  else None.

(** The weight a style keyword stands for: [{thin:1, medium:2, thick:3}],
    anything else 2. *)
Definition weightOf (keyword : string) : Z :=
  if keyword =? "thin" then 1%Z
  else if keyword =? "medium" then 2%Z
  else if keyword =? "thick" then 3%Z
  else 2%Z.

(** The confirmation state machine, read off the two state variables
    [confirmData] and [showConfirmModal]; any other combination is not a
    state of the machine. *)
Inductive ConfirmationState : Type :=
| Idle
| PendingConfirmation (request : ConfirmationRequest).

Definition confirmationState (s : AppState) : option ConfirmationState :=
  match confirmData s, showConfirmModal s with
  | None, false => Some Idle
  | Some request, true => Some (PendingConfirmation request)
  | _, _ => None
  end.



Definition requests (t : list Event) : list Request :=
  flat_map (fun e => match e with fetch q => [q] | _ => [] end) t.

(** A table-list refresh is a [GET /api/tables]; a view reload is a
    [POST /api/data/view]. *)
Definition isRefreshOrReload (q : Request) : bool :=
  match q with
  | GET_tables | POST_data_view _ _ _ => true
  | _ => false
  end.

(** How a confirmation-resolution call can fail: in transport, or with
    [success: false]. *)
Definition resolutionFailed (reply : Fetched ResolveReply) : Prop :=
  match reply with
  | Rejected _ => True
  | Replied data => resolveSuccess data = false
  end.

(** A closed host for examples: the backend is a fixed table of replies,
    the widget a sheet that records nothing and never changes. *)
Definition tableHost : Host :=
  {| Backend := forall q : Request, Fetched (ReplyOf q);
     serve := fun q b => (b q, b);
     Widget := option Luckysheet;
     getLuckysheet := fun w => w;
     perform := fun _ w => w |}.

Definition offline : @Backend tableHost :=
  fun q => Rejected "Failed to fetch".

(** A command with nothing but an action. *)
Definition commandNamed (a : string) : Command :=
  {| action := PStr a; bold := PUndef; bgColor := PUndef; count := PUndef;
     column := PUndef; operator := PUndef; value := PUndef; color := PUndef;
     type := PUndef; outerStyle := PUndef; innerStyle := PUndef;
     contains := PUndef; ascending := PUndef |}.



(** A backend that refuses every resolution with [success: false]. *)
Definition refusing : @Backend tableHost :=
  fun q =>
    match q as q0 return Fetched (ReplyOf q0) with
    | POST_table_overwrite _ _ =>
        Replied {| resolveSuccess := false; resolveMessage := PStr "locked" |}
    | POST_table_rename _ _ =>
        Replied {| resolveSuccess := false; resolveMessage := PStr "locked" |}
    | DELETE_table _ =>
        Replied {| resolveSuccess := false; resolveMessage := PStr "locked" |}
    | _ => Rejected "Failed to fetch"
    end.

Definition freshWorld (b : @Backend tableHost) : @World tableHost :=
  {| app := initialState; backend := b; widget := None; trace := [] |}.

(** A data response that stages a mutation in a temp table. *)
Definition stagedPayload : QueryPayload :=
  {| response_type := Some "data";
     payloadAnswer := Some "3 rows removed";
     explanation := None;
     result := NoResult;
     payloadTempTable := Some "t_ai_temp_1" |}.

Definition stagedRequest : ConfirmationRequest :=
  {| temp_table := "t_ai_temp_1"; answer := "3 rows removed" |}.

(** The component with the table "sales" active and [stagedRequest] open. *)
Definition pendingWorld (b : @Backend tableHost) : @World tableHost :=
  {| app :=
       setShowConfirmModal true
         (setConfirmData (Some stagedRequest)
            (setActiveTab (Some "sales") initialState));
     backend := b; widget := None; trace := [] |}.

(** Two component states with the same confirmation variables. *)
Definition sameConfirmation (s s' : AppState) : Prop :=
  confirmData s' = confirmData s /\ showConfirmModal s' = showConfirmModal s.

(** An action that never touches the confirmation variables. *)
Definition keepsConfirmation {host : Host} {A : Type} (c : M A) : Prop :=
  forall w : World, sameConfirmation (app w) (app (snd (c w))).



End Spec.

(** ** The log monitor: [src/src/components/DebugConsole.jsx]

    [fetchLogs] runs once on mount and then every second.  It reads the
    cursor [lastIdRef.current], fetches the log tail, appends what it gets
    to [logs] keeping the last 200 entries, and moves the cursor to the id
    of the last entry fetched. *)

Module DebugConsole.
Import Js Json App.

Record Log : Type :=
  { logId : Prim;
    timestamp : Z;
    logType : string;
    logContent : string;
    details : option Json }.

(** [{ success, data }] of [GET /api/logs]. *)
Record LogsReply : Type := { logsSuccess : bool; logsData : list Log }.

(** [logs], [lastIdRef.current] (null at first), and whether
    [listRef.current] is set, that is, whether the list is mounted. *)
Record Console : Type :=
  { logs : list Log; lastId : Prim; listMounted : bool }.

Definition initialConsole (mounted : bool) : Console :=
  {| logs := []; lastId := PNull; listMounted := mounted |}.

Inductive ConsoleEvent : Type :=
| fetched (url : string)
| scrolledToBottom
| console_error (message : string).    (* "Log poll failed", err *)

Definition API_BASE : string := "http://127.0.0.1:8000".

(** [combined.slice(-n)]: the last [n] items, all of them when there are
    fewer. *)
Definition slice_last {A : Type} (n : nat) (items : list A) : list A :=
  skipn (List.length items - n) items.

(** The url of one poll: with [since_id] once the cursor is truthy. *)
Definition logsUrl (cursor : Prim) : string :=
  if truthyP cursor
  then API_BASE ++ "/api/logs?since_id=" ++ toStringP cursor
  else API_BASE ++ "/api/logs".

(** One run of [fetchLogs] against a network that answers [net url]. *)
Definition fetchLogs (net : string -> Fetched LogsReply) (st : Console)
  : Console * list ConsoleEvent :=
  let url := logsUrl (lastId st) in
  match net url with
  | Replied json =>
      if logsSuccess json && (0 <? List.length (logsData json))%nat
      then
        ({| logs := slice_last 200 (logs st ++ logsData json);
            lastId := last (map logId (logsData json)) PUndef;
            listMounted := listMounted st |},
         fetched url :: (if listMounted st then [scrolledToBottom] else []))
      else (st, [fetched url])
  | Rejected message => (st, [fetched url; console_error message])
  end.

(** Successive polls, each against the network of its moment. *)
Fixpoint polls (nets : list (string -> Fetched LogsReply)) (st : Console) : Console :=
  match nets with
  | [] => st
  | net :: later => polls later (fst (fetchLogs net st))
  end.

(** [LogItem]: whether the details toggle is rendered, and the text of the
    details view. *)
Definition hasDetails (log : Log) : bool :=
  match details log with
  | None | Some JNull => false
  | Some _ => true
  end.

(** Sample entries and a network that returns two of them. *)
Definition sampleLog (n : Z) : Log :=
  {| logId := PNum n; timestamp := 0; logType := "SQL";
     logContent := "select 1"; details := None |}.

Definition twoLogs : string -> Fetched LogsReply :=
  fun _ => Replied {| logsSuccess := true; logsData := [sampleLog 1; sampleLog 2] |}.

End DebugConsole.

(** ** The Electron bridge: [src/src/api/ipc.js], [src/preload.js] and the
    IPC handlers of [src/main.js]

    The renderer's [get] and [post] go through [window.electronAPI.invoke]
    (preload), which forwards to the main process handler 'api-request',
    which calls axios against the Python server.  A call is embedded as the
    record it resolves to and the HTTP requests and console lines it
    caused; [axios] stands for the server of the moment. *)

Module Ipc.
Import Js Json.

Record AxiosConfig : Type :=
  { method : string; url : string; body : option Json }.

Inductive AxiosOutcome : Type :=
| resolved (data : Json)
| rejected (message : string).

(** [{ success: true, data }] or [{ success: false, error }]. *)
Record ApiResult : Type :=
  { success : bool; data : option Json; error : option string }.

(** [{ online: true, data }] or [{ online: false, error }]. *)
Record Health : Type :=
  { online : bool; healthData : option Json; healthError : option string }.

Inductive IpcEvent : Type :=
| http (config : AxiosConfig)
| console_warn (text : string).

Definition PYTHON_SERVER_URL : string := "http://127.0.0.1:8000".

(** main.js: [ipcMain.handle('api-request', ...)].  [method] is [None]
    when the caller left it undefined; [method || 'GET'].  The headers are
    the same on every call ([Content-Type: application/json]) and are left
    out of the record. *)
Definition api_request (axios : AxiosConfig -> AxiosOutcome)
    (method : option string) (endpoint : string) (data : option Json)
  : ApiResult * list IpcEvent :=
  let config :=
    {| method := match method with
                 | Some m => if m =? EmptyString then "GET" else m
                 | None => "GET"
                 end;
       url := PYTHON_SERVER_URL ++ endpoint;
       body := data |} in
  match axios config with
  | resolved response =>
      ({| success := true; data := Some response; error := None |}, [http config])
  | rejected message =>
      ({| success := false; data := None; error := Some message |}, [http config])
  end.

(** main.js: [ipcMain.handle('check-backend-health', ...)]. *)
Definition check_backend_health (axios : AxiosConfig -> AxiosOutcome)
  : Health * list IpcEvent :=
  let config :=
    {| method := "GET"; url := PYTHON_SERVER_URL ++ "/api/health"; body := None |} in
  match axios config with
  | resolved response =>
      ({| online := true; healthData := Some response; healthError := None |},
       [http config])
  | rejected message =>
      ({| online := false; healthData := None; healthError := Some message |},
       [http config])
  end.

(** preload.js: [electronAPI.invoke] and [electronAPI.checkBackendHealth]
    forward to the two handlers. *)
Definition invoke (axios : AxiosConfig -> AxiosOutcome)
    (method : option string) (endpoint : string) (data : option Json)
  : ApiResult * list IpcEvent :=
  api_request axios method endpoint data.

Definition checkBackendHealth (axios : AxiosConfig -> AxiosOutcome)
  : Health * list IpcEvent :=
  check_backend_health axios.

Definition Not_in_Electron : ApiResult :=
  {| success := false; data := None; error := Some "Not in Electron" |}.

(** ipc.js.  [electronAPI] tells whether [window.electronAPI] is set. *)
Definition get (electronAPI : bool) (axios : AxiosConfig -> AxiosOutcome)
    (endpoint : string) : ApiResult * list IpcEvent :=
  if negb electronAPI
  then (Not_in_Electron, [console_warn "Not running in Electron environment"])
  else invoke axios (Some "GET") endpoint None.

Definition post (electronAPI : bool) (axios : AxiosConfig -> AxiosOutcome)
    (endpoint : string) (data : option Json) : ApiResult * list IpcEvent :=
  if negb electronAPI
  then (Not_in_Electron, [console_warn "Not running in Electron environment"])
  else invoke axios (Some "POST") endpoint data.

Definition checkHealth (electronAPI : bool) (axios : AxiosConfig -> AxiosOutcome)
  : Health * list IpcEvent :=
  if negb electronAPI
  then ({| online := false; healthData := None; healthError := Some "Not in Electron" |},
        [])
  else checkBackendHealth axios.

Definition getSheetData (electronAPI : bool) (axios : AxiosConfig -> AxiosOutcome)
  : ApiResult * list IpcEvent :=
  get electronAPI axios "/api/sheet/data".

Definition saveSheetData (electronAPI : bool) (axios : AxiosConfig -> AxiosOutcome)
    (data : Json) : ApiResult * list IpcEvent :=
  post electronAPI axios "/api/sheet/data" (Some data).

(** The outcome of a call, as the record the caller gets. *)
Definition resultOf (outcome : AxiosOutcome) : ApiResult :=
  match outcome with
  | resolved response => {| success := true; data := Some response; error := None |}
  | rejected message => {| success := false; data := None; error := Some message |}
  end.

End Ipc.

(** ** Further notions for statements about the component *)

Module Frames.
Import Js SheetController Json App Spec.

(** An action that leaves one view of the component state as it was. *)
Definition keepsField {host : Host} {X A : Type}
    (field : AppState -> X) (c : M A) : Prop :=
  forall w : World, field (app (snd (c w))) = field (app w).

(** The chat side of the state; the state outside the table list and the
    view; the state outside the view. *)
Definition chat (s : AppState) : list Message * string * bool :=
  (messages s, inputValue s, isLoading s).

Definition outsideView (s : AppState)
  : list Message * list Table * string * bool
    * option ConfirmationRequest * bool * string :=
  (messages s, tables s, inputValue s, isLoading s,
   confirmData s, showConfirmModal s, saveAsName s).

Definition outsideTables (s : AppState)
  : list Message * string * bool * option ConfirmationRequest * bool * string :=
  (messages s, inputValue s, isLoading s,
   confirmData s, showConfirmModal s, saveAsName s).

(** How a poll of the command queue can come back with nothing to do. *)
Definition nothingPending (reply : Fetched PendingReply) : Prop :=
  match reply with
  | Rejected _ => True
  | Replied data => pendingSuccess data = false \/ commands data = []
  end.


(** A backend that answers every request favourably: one table "sales",
    a view of one column, resolutions that succeed, an empty queue, and a
    query answered by a clarifying question. *)
Definition serving : @Backend tableHost :=
  fun q =>
    match q as q0 return Fetched (ReplyOf q0) with
    | GET_ui_pending => Replied {| pendingSuccess := true; commands := [] |}
    | GET_tables =>
        Replied {| tablesSuccess := true; tablesData := [("sales", (2, 1)%Z)] |}
    | POST_data_view _ _ _ =>
        Replied {| viewSuccess := true;
                   viewColumns := ["a"];
                   viewRows := [[("a", JNum 1)]; [("a", JNull)]] |}
    | POST_ai_query _ =>
        Replied {| querySuccess := true;
                   queryData :=
                     {| response_type := Some "clarify";
                        payloadAnswer := Some "Which column?";
                        explanation := None;
                        result := NoResult;
                        payloadTempTable := None |};
                   queryMessage := PUndef |}
    | POST_table_overwrite _ _ =>
        Replied {| resolveSuccess := true; resolveMessage := PStr "ok" |}
    | POST_table_rename _ _ =>
        Replied {| resolveSuccess := true; resolveMessage := PStr "ok" |}
    | DELETE_table _ =>
        Replied {| resolveSuccess := true; resolveMessage := PStr "ok" |}
    end.

(** [pendingWorld] with a name typed into the Save-As field. *)
Definition namingWorld (b : @Backend tableHost) : @World tableHost :=
  {| app := setSaveAsName "copy" (app (pendingWorld b));
     backend := b; widget := None; trace := [] |}.


(** [freshWorld] with only white space in the chat input. *)
Definition blankWorld (b : @Backend tableHost) : @World tableHost :=
  {| app := setInputValue "   " initialState;
     backend := b; widget := None; trace := [] |}.

(** A data response without a temp table; a legacy response whose result
    is three rows. *)
Definition committedPayload : QueryPayload :=
  {| response_type := Some "data";
     payloadAnswer := Some "done";
     explanation := None;
     result := NoResult;
     payloadTempTable := None |}.

Definition threeRowsPayload : QueryPayload :=
  {| response_type := Some "answer";
     payloadAnswer := None;
     explanation := None;
     result := Rows [[("a", JNum 1)]; [("a", JNum 2)]; [("a", JNum 3)]];
     payloadTempTable := None |}.

(** A legacy response whose result is two rows, the first without any
    field. *)
Definition fieldlessRowsPayload : QueryPayload :=
  {| response_type := None;
     payloadAnswer := None;
     explanation := None;
     result := Rows [[]; [("a", JNum 1)]];
     payloadTempTable := None |}.

(** A command with one column parameter. *)
Definition columnCommand (a : string) (columnName : Prim) : Command :=
  {| action := PStr a; bold := PUndef; bgColor := PUndef; count := PUndef;
     column := columnName; operator := PUndef; value := PUndef; color := PUndef;
     type := PUndef; outerStyle := PUndef; innerStyle := PUndef;
     contains := PUndef; ascending := PUndef |}.

Definition statusSheet : Grid :=
  [ [ Obj {| cell_v := PStr "status"; cell_m := PStr "status" |} ];
    [ Obj {| cell_v := PStr "active"; cell_m := PStr "active" |} ];
    [ Obj {| cell_v := PStr "archived"; cell_m := PStr "archived" |} ];
    [ Obj {| cell_v := PStr "Archived"; cell_m := PStr "Archived" |} ];
    [ Obj {| cell_v := PStr "archived"; cell_m := PStr "archived" |} ] ].

End Frames.

(* ===================================================================== *)
(** * Part II. Theorems                                                   *)
(* ===================================================================== *)

(** ** The capability layer *)

Module CapabilityFacts.
Import Js SheetController Spec.

(** *** Column widths *)

Lemma running_max_is_clamped_max (c : nat) (rows : Grid) (start : nat) :
  fold_left
    (fun maxWidth row => Nat.max maxWidth (Nat.min (textWidth (at_index row c)) 300))
    rows start
  = Nat.max start
      (Nat.min (list_max (map (fun row => textWidth (at_index row c)) rows)) 300).
Proof.
  revert start.
  induction rows as [| row rows IH]; intros start; simpl.
  - lia.
  - rewrite IH. lia.
Qed.

Lemma maxWidth_clamp (data : Grid) (c : nat) :
  maxWidth data c = clamp (list_max (observedWidths data c)) 50 300.
Proof.
  unfold maxWidth, clamp, observedWidths.
  apply running_max_is_clamped_max.
Qed.

Lemma maxWidth_bounds (data : Grid) (c : nat) :
  50 <= maxWidth data c <= 300.
Proof.
  rewrite maxWidth_clamp. unfold clamp. lia.
Qed.

(** C8. On every sheet with at least one row, [autoFitColumnWidth] sets the
    width of each column of the header row, in order, to
    [clamp (max text width of the column over the first 100 rows) 50 300]
    (the running maximum of [min textWidth 300] started at 50 that the code
    computes is that clamp), refreshes, and reports success. *)
Theorem autoFitColumnWidth_sets_clamped_max (headerRow : list Val) (rest : Grid) :
  autoFitColumnWidth (sheetOf (headerRow :: rest))
  = (map (fun c =>
            setColumnWidth [c]
              (clamp (list_max (observedWidths (headerRow :: rest) c)) 50 300))
         (seq 0 (List.length headerRow))
       ++ [refresh],
     succeeded "已自动调整所有列宽").
Proof.
  unfold autoFitColumnWidth, sheetOf. cbn [getSheetData].
  f_equal. f_equal.
  apply map_ext. intros c. now rewrite maxWidth_clamp.
Qed.

(** *** Conditional format *)

Lemma dataRows_three (headerRow r1 r2 r3 : list Val) :
  dataRows [headerRow; r1; r2; r3] = [(1, r1); (2, r2); (3, r3)].
Proof. reflexivity. Qed.

(** C7. [setConditionalFormat("age", ">", 30, null, "#ffcccc")] on a sheet
    with a header row and three data rows whose cells in the column found
    for "age" read 25, 35 and 40: the background (and nothing else) is set
    on that column's cell in data rows 2 and 3, the widget is refreshed,
    the call succeeds and its message reports 2 cells. *)
Theorem setConditionalFormat_ages_example
    (headerRow r1 r2 r3 : list Val) (colIndex : nat) :
  findColumn headerRow (PStr "age") = Some colIndex ->
  toNumber (cellValue (at_index r1 colIndex)) = Some 25%Z ->
  toNumber (cellValue (at_index r2 colIndex)) = Some 35%Z ->
  toNumber (cellValue (at_index r3 colIndex)) = Some 40%Z ->
  setConditionalFormat (sheetOf [headerRow; r1; r2; r3])
    (PStr "age") (PStr ">") (PNum 30) PNull (PStr "#ffcccc")
  = ([ setCellValue 2 colIndex {| bl := None; fc := None; bg := Some (PStr "#ffcccc") |};
       setCellValue 3 colIndex {| bl := None; fc := None; bg := Some (PStr "#ffcccc") |};
       refresh ],
     succeeded "已对 2 个单元格应用条件格式").
Proof.
  intros Hcol H1 H2 H3.
  unfold setConditionalFormat, sheetOf. cbn [getSheetData default].
  rewrite Hcol.
  unfold matchingRows. rewrite dataRows_three.
  cbn [filter matches String.eqb Ascii.eqb Bool.eqb].
  unfold num_gt. rewrite H1, H2, H3.
  reflexivity.
Qed.

Definition agesSheet : Grid :=
  [ [ Obj {| cell_v := PStr "name"; cell_m := PStr "name" |};
      Obj {| cell_v := PStr "age"; cell_m := PStr "age" |};
      Bare PNull ];
    [ Obj {| cell_v := PStr "Ann"; cell_m := PStr "Ann" |};
      Obj {| cell_v := PNum 25; cell_m := PStr "25" |} ];
    [ Obj {| cell_v := PStr "Bob"; cell_m := PStr "Bob" |};
      Obj {| cell_v := PNum 35; cell_m := PStr "35" |} ];
    [ Obj {| cell_v := PStr "Cy"; cell_m := PStr "Cy" |};
      Obj {| cell_v := PStr "40"; cell_m := PStr "40" |} ] ].

Lemma setConditionalFormat_ages_example_witness :
  setConditionalFormat (sheetOf agesSheet)
    (PStr "age") (PStr ">") (PNum 30) PNull (PStr "#ffcccc")
  = ([ setCellValue 2 1 {| bl := None; fc := None; bg := Some (PStr "#ffcccc") |};
       setCellValue 3 1 {| bl := None; fc := None; bg := Some (PStr "#ffcccc") |};
       refresh ],
     succeeded "已对 2 个单元格应用条件格式").
Proof.
  apply (setConditionalFormat_ages_example _ _ _ _ 1); reflexivity.
Defined.

(** *** showAllRows *)

(** C9, as stated, fails: without a sheet handle [showAllRows] returns a
    failure, so it does not succeed in every state. *)
Lemma showAllRows_can_fail :
  ~ (forall sheet : option Luckysheet, success (snd (showAllRows sheet)) = true).
Proof.
  intros H. specialize (H None). discriminate H.
Qed.

(** C9, amended. With a sheet handle and a data array, empty or not,
    [showAllRows] asks the widget to show every row index of the data and
    succeeds: it has no no-data failure.  Without a handle it fails with
    'Sheet not available' and touches nothing. *)
Theorem showAllRows_succeeds_on_any_data (data : Grid) :
  showAllRows (sheetOf data)
  = ([showRow (seq 0 (List.length data))], succeeded "已显示所有行")
  /\ showAllRows None = ([], failed "Sheet not available").
Proof. split; reflexivity. Qed.

(** *** Borders *)

(** [setBorder] never looks at [innerStyle]: two calls that differ only in
    it issue the same widget calls and return the same result, for every
    border type, 'inner' included. *)
Lemma setBorder_ignores_innerStyle
    (sheet : option Luckysheet) (type outerStyle innerStyle innerStyle' : Prim) :
  setBorder sheet type outerStyle innerStyle
  = setBorder sheet type outerStyle innerStyle'.
Proof. reflexivity. Qed.

(** The three keywords map to their weights, and a keyword that is no
    property of the style table, own or inherited, falls back to 2. *)
Lemma styleMap_weight (keyword : string) :
  existsb (String.eqb keyword) Object_prototype_names = false ->
  or_2 (styleMap keyword) = Weight (weightOf keyword).
Proof.
  intros Hproto. unfold styleMap, weightOf.
  destruct (keyword =? "thin"); [reflexivity |].
  destruct (keyword =? "medium"); [reflexivity |].
  destruct (keyword =? "thick"); [reflexivity |].
  rewrite Hproto. reflexivity.
Qed.

(** C10, at the input where the code departs from it.  [styleMap] is an
    object literal, so [styleMap["constructor"]] is the member inherited
    from [Object.prototype]; it is truthy, the [|| 2] does not apply, and
    the style handed to [setBorderInfo] is that member, not the weight 2 of
    an unrecognized keyword. *)
Theorem setBorder_inherited_keyword_is_no_weight :
  setBorder (sheetOf [[Bare PNull]]) (PStr "all") (PStr "constructor") (PStr "thin")
  = ([ setRangeShow (0, 0)%Z (0, 0)%Z;
       setBorderInfo
         {| rangeType := "range";
            borderType := "border-all";
            borderStyle := Inherited "constructor";
            borderColor := "#000000" |} ],
     succeeded "已添加all边框")
  /\ or_2 (styleMap "constructor") <> Weight (weightOf "constructor").
Proof.
  split; [reflexivity | discriminate].
Qed.

(** *** Column lookup *)

Lemma findColumnFrom_none (headerRow : list Val) (columnName : string) (c : nat) :
  (forall cell, In cell headerRow -> toString (headerCellValue cell) <> columnName) ->
  findColumnFrom c headerRow (PStr columnName) = None.
Proof.
  revert c.
  induction headerRow as [| cell rest IH]; intros c Hno; simpl.
  - reflexivity.
  - assert (Hcell : toString (headerCellValue cell) <> columnName)
      by (apply Hno; left; reflexivity).
    apply String.eqb_neq in Hcell. rewrite Hcell.
    apply IH. intros cell' Hin. apply Hno. right. exact Hin.
Qed.

(** First match wins: the index found is the least one whose cell text
    equals the column name. *)
Lemma findColumnFrom_first_match
    (headerRow : list Val) (columnName : string) (c i : nat) :
  findColumnFrom c headerRow (PStr columnName) = Some i ->
  c <= i /\
  toString (headerCellValue (at_index headerRow (i - c))) = columnName /\
  i - c < List.length headerRow /\
  forall j, j < i - c ->
            toString (headerCellValue (at_index headerRow j)) <> columnName.
Proof.
  revert c.
  induction headerRow as [| cell rest IH]; intros c Hfind; simpl in Hfind.
  - discriminate.
  - destruct (toString (headerCellValue cell) =? columnName) eqn:Hcell.
    + injection Hfind as <-. rewrite Nat.sub_diag.
      apply String.eqb_eq in Hcell.
      repeat split; simpl; try lia; exact Hcell.
    + apply IH in Hfind. destruct Hfind as (Hle & Htext & Hlt & Hleast).
      apply String.eqb_neq in Hcell.
      replace (i - c) with (S (i - S c)) by lia.
      repeat split; simpl; try lia.
      * exact Htext.
      * intros [| j] Hj; [exact Hcell |].
        apply Hleast. lia.
Qed.

(** C4, at an input where the code departs from it.  The header row of
    [agesSheet] is 'name', 'age' and an empty (null) cell, as a sheet
    narrower than its grid has: no header cell has "null" as its value or
    display text.  For the empty cell the scan falls back to the cell
    itself, and [String(null)] is "null": the column is found at index 2,
    and [sortByColumn] selects the data rows, sorts them by that column
    and returns success instead of reporting the column as missing.
    (Where the code reads data cells it guards against this:
    [hideRowsWhere] ends its fallback chain in [?? ''],
    [autoFitColumnWidth] in [|| ''].) *)
Theorem sortByColumn_finds_null_in_an_empty_header_cell :
  map valueOrDisplayText (hd [] agesSheet) = [Some "name"; Some "age"; None]
  /\ findColumn (hd [] agesSheet) (PStr "null") = Some 2
  /\ sortByColumn (sheetOf agesSheet) (PStr "null") (PBool true)
     = ([ setRangeShow (1, 3)%Z (0, 2)%Z; orderByRow 2 (PBool true) ],
        succeeded ("已按" ++ dquote ++ "null" ++ dquote ++ "升序排序")).
Proof.
  split; [reflexivity |]. split; reflexivity.
Qed.

(** Hence absence by value-or-display-text alone does not make the three
    capabilities report the column as missing. *)
Lemma absent_column_by_value_or_text_not_reported :
  ~ (forall (headerRow : list Val) (rest : Grid) (columnName : string)
            (operator value color bgColor contains ascending : Prim),
        (forall cell, In cell headerRow ->
                      valueOrDisplayText cell <> Some columnName) ->
        setConditionalFormat (sheetOf (headerRow :: rest)) (PStr columnName)
          operator value color bgColor
        = ([], failed ("找不到列: " ++ columnName)) /\
        hideRowsWhere (sheetOf (headerRow :: rest)) (PStr columnName) contains
        = ([], failed ("找不到列: " ++ columnName)) /\
        sortByColumn (sheetOf (headerRow :: rest)) (PStr columnName) ascending
        = ([], failed ("找不到列: " ++ columnName))).
Proof.
  intros H.
  specialize (H [Bare PNull] [] "null" PUndef PUndef PUndef PUndef PUndef PUndef).
  destruct H as (_ & _ & Hsort).
  - intros cell [<- | []]. discriminate.
  - discriminate Hsort.
Qed.

(** X30. The text the scan compares is the string form of the header
    cell's value, else of its display text, else of the cell itself.  On
    every sheet with data, when the column name equals that text for no
    header cell, each of [setConditionalFormat], [hideRowsWhere] and
    [sortByColumn] returns [success: false] with the error '找不到列: '
    followed by the column name, and makes no call on the widget. *)
Theorem absent_column_is_reported
    (headerRow : list Val) (rest : Grid) (columnName : string)
    (operator value color bgColor contains ascending : Prim) :
  (forall cell, In cell headerRow ->
                toString (headerCellValue cell) <> columnName) ->
  setConditionalFormat (sheetOf (headerRow :: rest)) (PStr columnName)
    operator value color bgColor
  = ([], failed ("找不到列: " ++ columnName)) /\
  hideRowsWhere (sheetOf (headerRow :: rest)) (PStr columnName) contains
  = ([], failed ("找不到列: " ++ columnName)) /\
  sortByColumn (sheetOf (headerRow :: rest)) (PStr columnName) ascending
  = ([], failed ("找不到列: " ++ columnName)).
Proof.
  intros Hno.
  pose proof (findColumnFrom_none headerRow columnName 0 Hno) as Hfind.
  unfold setConditionalFormat, hideRowsWhere, sortByColumn, sheetOf, findColumn.
  cbn [getSheetData]. rewrite Hfind.
  repeat split; reflexivity.
Qed.

Lemma absent_column_is_reported_witness :
  setConditionalFormat (sheetOf agesSheet) (PStr "salary")
    (PStr ">") (PNum 30) PNull (PStr "#ffcccc")
  = ([], failed ("找不到列: " ++ "salary")) /\
  hideRowsWhere (sheetOf agesSheet) (PStr "salary") (PStr "x")
  = ([], failed ("找不到列: " ++ "salary")) /\
  sortByColumn (sheetOf agesSheet) (PStr "salary") (PBool true)
  = ([], failed ("找不到列: " ++ "salary")).
Proof.
  apply (absent_column_is_reported _ _ "salary").
  intros cell Hin. simpl in Hin.
  destruct Hin as [<- | [<- | [<- | []]]]; discriminate.
Defined.

End CapabilityFacts.

(** ** The executor and the poller *)

Module ExecutorFacts.
Import Js SheetController Json App Spec.

Local Open Scope action_scope.

Section WithHost.
Context {host : Host}.




Lemma capabilityOf_unknown (command : Command) (sheet : option Luckysheet) :
  (forall a, action command = PStr a -> ~ In a capabilityNames) ->
  capabilityOf command sheet = None.
Proof.
  intros Hunknown. unfold capabilityOf.
  destruct (action command) as [| | | | | a]; try reflexivity.
  specialize (Hunknown a eq_refl).
  repeat match goal with
         | |- context [if ?a =? ?known then _ else _] =>
             destruct (String.eqb_spec a known) as [-> |];
             [exfalso; apply Hunknown; cbn; tauto |]
         end.
  reflexivity.
Qed.

Lemma capabilityOf_known (command : Command) (sheet : option Luckysheet) (a : string) :
  action command = PStr a -> In a capabilityNames ->
  exists outcome, capabilityOf command sheet = Some outcome.
Proof.
  intros Haction Hin. unfold capabilityOf. rewrite Haction.
  cbn in Hin.
  repeat (destruct Hin as [<- | Hin]; [cbn; eexists; reflexivity |]).
  contradiction.
Qed.

(** C5. A command whose action is none of the nine capability names is
    answered with [{ success: false, error: '未知命令: ' + action }], the
    text naming the action.  The executor returns that record (it does not
    throw): it logs the command and a warning and leaves the component
    state, the backend and the widget as they were. *)
Theorem unknown_action_is_rejected (command : Command) (w : World) :
  (forall a, action command = PStr a -> ~ In a capabilityNames) ->
  executeUICommand command w
  = (failed ("未知命令: " ++ toStringP (action command)),
     {| app := app w; backend := backend w; widget := widget w;
        trace := trace w ++ [ console_log (UI_Command command);
                              console_warn (Unknown_UI_command (action command)) ] |}).
Proof.
  intros Hunknown.
  unfold executeUICommand, bind, emit, readSheet. cbn.
  rewrite (capabilityOf_unknown _ _ Hunknown). cbn.
  now rewrite <- app_assoc.
Qed.








End WithHost.

Lemma unknown_action_is_rejected_witness :
  executeUICommand (commandNamed "dropTable") (freshWorld offline)
  = (failed ("未知命令: " ++ "dropTable"),
     {| app := initialState; backend := offline; widget := None;
        trace := [ console_log (UI_Command (commandNamed "dropTable"));
                   console_warn (Unknown_UI_command (PStr "dropTable")) ] |}).
Proof.
  apply (unknown_action_is_rejected (host := tableHost)
           (commandNamed "dropTable") (freshWorld offline)).
  intros a Haction. injection Haction as <-.
  cbn. intuition discriminate.
Defined.


End ExecutorFacts.

(** ** The response dispatcher and the confirmation state machine *)

Module ConfirmationFacts.
Import Js SheetController Json App Spec.

Local Open Scope action_scope.

Section WithHost.
Context {host : Host}.

Lemma requests_app (t1 t2 : list Event) :
  requests (t1 ++ t2) = requests t1 ++ requests t2.
Proof. apply flat_map_app. Qed.

(** *** Actions that keep the confirmation variables *)

Lemma keeps_ret {A : Type} (a : A) : keepsConfirmation (ret a).
Proof. intros w. split; reflexivity. Qed.

Lemma keeps_bind {A B : Type} (c : M A) (k : A -> M B) :
  keepsConfirmation c -> (forall a, keepsConfirmation (k a)) ->
  keepsConfirmation (bind c k).
Proof.
  intros Hc Hk w. unfold bind.
  specialize (Hc w). destruct (c w) as [a w1]. cbn [snd] in Hc.
  specialize (Hk a w1). destruct Hc as [Hc1 Hc2], Hk as [Hk1 Hk2].
  split; congruence.
Qed.

Lemma keeps_emit (e : Event) : keepsConfirmation (emit e).
Proof. intros w. split; reflexivity. Qed.

Lemma keeps_request (q : Request) : keepsConfirmation (request q).
Proof.
  intros w. unfold request. destruct (serve q (backend w)). split; reflexivity.
Qed.

Lemma keeps_invoke (call : SheetCall) : keepsConfirmation (invoke call).
Proof. intros w. split; reflexivity. Qed.

Lemma keeps_readSheet : keepsConfirmation readSheet.
Proof. intros w. split; reflexivity. Qed.

Lemma keeps_update (f : AppState -> AppState) :
  (forall s, sameConfirmation s (f s)) -> keepsConfirmation (update f).
Proof. intros Hf w. apply Hf. Qed.

Lemma keeps_forEach {A : Type} (items : list A) (body : A -> M unit) :
  (forall x, keepsConfirmation (body x)) -> keepsConfirmation (forEach items body).
Proof.
  intros Hbody. induction items as [| x items IH]; cbn [forEach].
  - apply keeps_ret.
  - apply keeps_bind; auto.
Qed.

Ltac keeps :=
  repeat first
    [ apply keeps_ret
    | apply keeps_emit
    | apply keeps_request
    | apply keeps_invoke
    | apply keeps_readSheet
    | apply keeps_update; intros ?; split; reflexivity
    | apply keeps_forEach; intros ?
    | apply keeps_bind; [| intros ?]
    | match goal with
      | |- keepsConfirmation (match ?x with _ => _ end) => destruct x
      | |- keepsConfirmation (let (_, _) := ?x in _) => destruct x
      end ].




Lemma keeps_executeUICommand (command : Command) :
  keepsConfirmation (executeUICommand command).
Proof.
  unfold executeUICommand. keeps.
Qed.



(** *** The dispatcher inside [handleSendMessage] *)

(** With a non-blank input, no query in flight and a successful reply,
    [handleSendMessage] posts the query, drops the loading placeholder,
    runs the dispatcher on the reply's payload with the active tab it
    closed over, and clears the loading flag. *)
Lemma handleSendMessage_dispatches (w : World) (data : QueryReply) (b : Backend) :
  trim (inputValue (app w)) <> EmptyString ->
  isLoading (app w) = false ->
  serve (POST_ai_query (inputValue (app w))) (backend w) = (Replied data, b) ->
  querySuccess data = true ->
  handleSendMessage w
  = (dispatchResponse (activeTab (app w)) (queryData data) ;;
     update (setIsLoading false))
      {| app :=
           setMessages notLoading
             (setMessages
                (append {| role := "assistant"; content := "⏳ AI 正在分析处理...";
                           loading := true; responseType := None |})
                (setIsLoading true
                   (setInputValue EmptyString
                      (setMessages
                         (append {| role := "user"; content := inputValue (app w);
                                    loading := false; responseType := None |})
                         (app w)))));
         backend := b;
         widget := widget w;
         trace := trace w ++ [fetch (POST_ai_query (inputValue (app w)))] |}.
Proof.
  intros Hinput Hidle Hserve Hsuccess.
  apply String.eqb_neq in Hinput.
  unfold handleSendMessage. rewrite Hinput, Hidle. cbn [orb].
  unfold bind, update, request. cbn [app backend widget trace].
  rewrite Hserve, Hsuccess. reflexivity.
Qed.

(** *** C1: a data response that carries a temp table *)

(** C1. For every response whose kind is 'data' and whose payload carries a
    temp table name (a non-empty string), the dispatcher stores one
    ConfirmationRequest holding that name and the response's answer (the
    dispatcher's [answer]: the payload's answer, else its explanation, else
    the empty text) and opens the modal, so that the machine is in
    PendingConfirmation with that request; it appends the message '✅ ',
    the answer, ' (等待确认...)'; and it sends nothing to the backend: the
    trace gains only a log line, hence no table-list refresh and no view
    reload, and the table list, the sheet view and the active tab are
    untouched. *)
Theorem data_with_temp_table_opens_confirmation
    (closedOverTab : option string) (p : QueryPayload) (tempTable : string)
    (w : World) :
  response_type p = Some "data" ->
  payloadTempTable p = Some tempTable ->
  tempTable <> EmptyString ->
  let w' := snd (dispatchResponse closedOverTab p w) in
  confirmData (app w') = Some {| temp_table := tempTable; answer := answerOf p |}
  /\ showConfirmModal (app w') = true
  /\ confirmationState (app w')
     = Some (PendingConfirmation {| temp_table := tempTable; answer := answerOf p |})
  /\ messages (app w')
     = messages (app w)
         ++ [ {| role := "assistant";
                 content := "✅ " ++ answerOf p ++ " (等待确认...)";
                 loading := false;
                 responseType := Some "data" |} ]
  /\ trace w' = trace w ++ [console_log (Temp_table_intercepted tempTable)]
  /\ filter isRefreshOrReload (requests (trace w'))
     = filter isRefreshOrReload (requests (trace w))
  /\ backend w' = backend w
  /\ tables (app w') = tables (app w)
  /\ sheetData (app w') = sheetData (app w)
  /\ activeTab (app w') = activeTab (app w).
Proof.
  intros Hkind Htemp Hnonempty.
  apply String.eqb_neq in Hnonempty.
  unfold dispatchResponse, dispatchData. rewrite Hkind, Htemp.
  cbn [or_else present String.eqb Ascii.eqb Bool.eqb negb].
  rewrite Hnonempty. cbn.
  unfold requests. rewrite flat_map_app. cbn. rewrite app_nil_r.
  repeat split.
Qed.

(** *** C2: a failed Commit/Overwrite *)

(** C2. When the machine is in PendingConfirmation, a table is active, and
    the backend answers the overwrite request with [success: false] or the
    request fails in transport, [handleConfirmOverwrite] leaves the whole
    component state as it was: the stored request is unchanged and the
    modal stays open (PendingConfirmation, same request), and the table
    list and the sheet view are not reloaded.  The only request sent is
    the overwrite itself; the failure is shown in an alert. *)
Theorem overwrite_failure_stays_pending
    (w : World) (pending : ConfirmationRequest) (tab : string)
    (reply : Fetched ResolveReply) (b : Backend) :
  confirmationState (app w) = Some (PendingConfirmation pending) ->
  activeTab (app w) = Some tab ->
  tab <> EmptyString ->
  serve (POST_table_overwrite (temp_table pending) tab) (backend w) = (reply, b) ->
  resolutionFailed reply ->
  let w' := snd (handleConfirmOverwrite w) in
  app w' = app w
  /\ confirmData (app w') = Some pending
  /\ showConfirmModal (app w') = true
  /\ confirmationState (app w') = Some (PendingConfirmation pending)
  /\ requests (trace w')
     = requests (trace w) ++ [POST_table_overwrite (temp_table pending) tab]
  /\ (exists text,
        trace w'
        = trace w ++ [fetch (POST_table_overwrite (temp_table pending) tab); alert text])
  /\ widget w' = widget w.
Proof.
  intros Hstate Htab Hnonempty Hserve Hfailed.
  assert (Hdata : confirmData (app w) = Some pending
                  /\ showConfirmModal (app w) = true).
  { unfold confirmationState in Hstate.
    destruct (confirmData (app w)) as [stored |], (showConfirmModal (app w));
      try discriminate.
    injection Hstate as ->. auto. }
  destruct Hdata as [Hdata Hmodal].
  apply String.eqb_neq in Hnonempty.
  unfold handleConfirmOverwrite. rewrite Hdata, Htab.
  cbn [present negb]. rewrite Hnonempty. cbn [negb].
  assert (Hrun : exists text,
             (res <- request (POST_table_overwrite (temp_table pending) tab) ;;
              match res with
              | Replied data =>
                  if resolveSuccess data
                  then
                    update (setMessages
                              (append (assistant ("✅ 已覆盖表格 " ++ dquote ++ tab ++ dquote)))) ;;
                    update (setShowConfirmModal false) ;;
                    update (setConfirmData None) ;;
                    loadTables (Some tab) ;;
                    loadTableData tab
                  else emit (alert ("覆盖失败: " ++ toStringP (resolveMessage data)))
              | Rejected _ => emit (alert "请求失败")
              end) w
             = (tt, {| app := app w; backend := b; widget := widget w;
                       trace := trace w
                                ++ [ fetch (POST_table_overwrite (temp_table pending) tab);
                                     alert text ] |})).
  { unfold bind, request. rewrite Hserve.
    destruct reply as [message | data]; cbn in Hfailed.
    - eexists. unfold emit. cbn [app backend widget trace].
      rewrite <- app_assoc. reflexivity.
    - rewrite Hfailed. eexists. unfold emit. cbn [app backend widget trace].
      rewrite <- app_assoc. reflexivity. }
  destruct Hrun as [text Hrun]. rewrite Hrun. cbn [snd app trace widget].
  rewrite requests_app.
  repeat split; try assumption.
  exists text. reflexivity.
Qed.

(** *** C3: Discard *)

(** C3. From either state of the machine, after [handleConfirmCancel] the
    machine is Idle: the request is cleared and the modal closed, whatever
    the backend did with the deletion request (its outcome is never looked
    at).  From Idle the handler is a no-op: the world is left exactly as it
    was, so nothing changes and no deletion request is sent.  From
    PendingConfirmation exactly one request is sent, the deletion of the
    temp table. *)
Theorem discard_always_ends_idle (w : World) :
  confirmationState (app w) <> None ->
  confirmationState (app (snd (handleConfirmCancel w))) = Some Idle
  /\ confirmData (app (snd (handleConfirmCancel w))) = None
  /\ showConfirmModal (app (snd (handleConfirmCancel w))) = false
  /\ (confirmationState (app w) = Some Idle -> snd (handleConfirmCancel w) = w)
  /\ (forall pending,
        confirmationState (app w) = Some (PendingConfirmation pending) ->
        requests (trace (snd (handleConfirmCancel w)))
        = requests (trace w) ++ [DELETE_table (temp_table pending)]).
Proof.
  intros Hstate.
  unfold confirmationState in *. unfold handleConfirmCancel.
  destruct (confirmData (app w)) as [stored |] eqn:Hdata.
  - unfold bind, request.
    destruct (serve (DELETE_table (temp_table stored)) (backend w)) as [reply b].
    cbn. repeat split.
    + destruct (showConfirmModal (app w)); discriminate.
    + intros pending Hpending.
      destruct (showConfirmModal (app w)); [| discriminate].
      injection Hpending as <-.
      unfold requests. rewrite flat_map_app. reflexivity.
  - cbn. rewrite Hdata.
    destruct (showConfirmModal (app w)) eqn:Hmodal; [contradiction |].
    repeat split. discriminate.
Qed.

(** *** The two state variables always form a state of the machine *)











End WithHost.

Lemma data_with_temp_table_opens_confirmation_witness :
  confirmationState
    (app (snd (dispatchResponse None stagedPayload (freshWorld offline))))
  = Some (PendingConfirmation stagedRequest)
  /\ trace (snd (dispatchResponse None stagedPayload (freshWorld offline)))
     = [console_log (Temp_table_intercepted "t_ai_temp_1")].
Proof.
  pose proof (data_with_temp_table_opens_confirmation (host := tableHost)
                None stagedPayload "t_ai_temp_1" (freshWorld offline)
                eq_refl eq_refl) as H.
  cbn zeta in H.
  destruct H as (_ & _ & Hstate & _ & Htrace & _); [discriminate |].
  split; [exact Hstate | exact Htrace].
Defined.

Lemma overwrite_failure_stays_pending_witness :
  app (snd (handleConfirmOverwrite (pendingWorld refusing)))
  = app (pendingWorld refusing)
  /\ confirmationState (app (snd (handleConfirmOverwrite (pendingWorld refusing))))
     = Some (PendingConfirmation stagedRequest).
Proof.
  pose proof (overwrite_failure_stays_pending (host := tableHost)
                (pendingWorld refusing) stagedRequest "sales"
                (Replied {| resolveSuccess := false; resolveMessage := PStr "locked" |})
                refusing eq_refl eq_refl) as H.
  cbn zeta in H.
  destruct H as (Happ & _ & _ & Hstate & _);
    [discriminate | reflexivity | reflexivity |].
  split; [exact Happ | exact Hstate].
Defined.

Lemma discard_always_ends_idle_witness :
  confirmationState (app (snd (handleConfirmCancel (pendingWorld offline))))
  = Some Idle
  /\ snd (handleConfirmCancel (freshWorld offline)) = freshWorld offline.
Proof.
  split.
  - apply (discard_always_ends_idle (host := tableHost) (pendingWorld offline)).
    discriminate.
  - apply (discard_always_ends_idle (host := tableHost) (freshWorld offline)).
    + discriminate.
    + reflexivity.
Defined.

End ConfirmationFacts.

(** ** More on the capability layer *)

Module CapabilityMore.
Import Js SheetController Spec Frames.

(** *** Row numbering of the data rows *)

Lemma numbered_rows_filter {A : Type} (keep : A -> bool) (d : A) (items : list A) (k : nat) :
  map fst (filter (fun '(r, x) => keep x) (combine (seq k (List.length items)) items))
  = filter (fun r => keep (nth (r - k) items d)) (seq k (List.length items)).
Proof.
  revert k.
  induction items as [| x items IH]; intros k; [reflexivity |].
  cbn [List.length seq combine filter].
  rewrite Nat.sub_diag. change (nth 0 (x :: items) d) with x.
  assert (Htail :
            filter (fun r => keep (nth (r - k) (x :: items) d))
                   (seq (S k) (List.length items))
            = filter (fun r => keep (nth (r - S k) items d))
                     (seq (S k) (List.length items))).
  { apply filter_ext_in. intros r Hr. apply in_seq in Hr.
    replace (r - k) with (S (r - S k)) by lia. reflexivity. }
  destruct (keep x); cbn [map fst]; rewrite IH, Htail; reflexivity.
Qed.


Lemma rowsToHide_by_number
    (headerRow : list Val) (rest : Grid) (colIndex : nat) (contains : Prim) :
  rowsToHide (headerRow :: rest) colIndex contains
  = filter (fun r => includes
                       (toString (cellValue_or_empty (at_index (nth (r - 1) rest []) colIndex)))
                       (toStringP contains))
           (seq 1 (List.length rest)).
Proof.
  unfold rowsToHide, dataRows. cbn [tl].
  apply (numbered_rows_filter
           (fun row => includes (toString (cellValue_or_empty (at_index row colIndex)))
                                (toStringP contains))).
Qed.

(** *** Column lookup *)

Lemma findColumnFrom_at (before after : list Val) (cell : Val)
    (columnName : string) (c : nat) :
  (forall other, In other before ->
                 toString (headerCellValue other) <> columnName) ->
  toString (headerCellValue cell) = columnName ->
  findColumnFrom c (before ++ cell :: after) (PStr columnName)
  = Some (c + List.length before).
Proof.
  revert c.
  induction before as [| other before IH]; intros c Hbefore Hcell; cbn.
  - apply String.eqb_eq in Hcell. rewrite Hcell. f_equal. lia.
  - assert (Hother : toString (headerCellValue other) <> columnName)
      by (apply Hbefore; left; reflexivity).
    apply String.eqb_neq in Hother. rewrite Hother.
    rewrite IH; [f_equal; lia | | exact Hcell].
    intros o Ho. apply Hbefore. right. exact Ho.
Qed.

Lemma findColumn_non_string (headerRow : list Val) (columnName : Prim) (c : nat) :
  (forall s, columnName <> PStr s) ->
  findColumnFrom c headerRow columnName = None.
Proof.
  intros Hnot. revert c.
  induction headerRow as [| cell rest IH]; intros c; cbn; [reflexivity |].
  destruct columnName; try apply IH.
  exfalso. eapply Hnot. reflexivity.
Qed.

(** X1. First match wins, and only a match wins: [findColumn] returns
    index [i] exactly when the header cell at [i] reads as the column name
    (the string form of its value, else display text, else the cell) and
    no cell to its left does. *)
Theorem findColumn_is_first_match
    (headerRow : list Val) (columnName : string) (i : nat) :
  findColumn headerRow (PStr columnName) = Some i
  <-> (i < List.length headerRow
       /\ toString (headerCellValue (at_index headerRow i)) = columnName
       /\ forall j, j < i ->
                    toString (headerCellValue (at_index headerRow j)) <> columnName).
Proof.
  unfold findColumn. split.
  - intros Hfind.
    apply CapabilityFacts.findColumnFrom_first_match in Hfind.
    rewrite Nat.sub_0_r in Hfind.
    destruct Hfind as (_ & Htext & Hlt & Hleast). auto.
  - intros (Hlt & Htext & Hleast).
    unfold at_index in *.
    destruct (nth_split headerRow (Bare PUndef) Hlt) as (before & after & Hsplit & Hlen).
    rewrite Hsplit in Htext |- *.
    rewrite app_nth2 in Htext by lia.
    rewrite Hlen, Nat.sub_diag in Htext. cbn [nth] in Htext.
    rewrite (findColumnFrom_at before after _ columnName 0); [f_equal; lia | | exact Htext].
    intros other Hin.
    apply (In_nth _ _ (Bare PUndef)) in Hin. destruct Hin as (j & Hj & <-).
    specialize (Hleast j ltac:(lia)).
    rewrite Hsplit, app_nth1 in Hleast by lia. exact Hleast.
Qed.



(** X3. Once the column is found, [hideRowsWhere] hides exactly the data
    rows whose cell text in that column includes the search text (case
    sensitive), in one [hideRow] call listing them in increasing order;
    when no row qualifies it makes no call at all and still succeeds,
    reporting 0 rows.  The header row is never hidden. *)
Theorem hideRowsWhere_hides_exactly_matching_rows
    (headerRow : list Val) (rest : Grid) (columnName contains : Prim) (colIndex : nat) :
  findColumn headerRow columnName = Some colIndex ->
  hideRowsWhere (sheetOf (headerRow :: rest)) columnName contains
  = (match
        filter (fun r => includes
                           (toString (cellValue_or_empty
                                        (at_index (nth (r - 1) rest []) colIndex)))
                           (toStringP contains))
               (seq 1 (List.length rest))
      with
      | [] => []
      | rows => [hideRow rows]
      end,
     succeeded
       ("已隐藏 " ++
        string_of_nat
          (List.length
             (filter (fun r => includes
                                 (toString (cellValue_or_empty
                                              (at_index (nth (r - 1) rest []) colIndex)))
                                 (toStringP contains))
                     (seq 1 (List.length rest)))) ++
        " 行包含" ++ dquote ++ toStringP contains ++ dquote ++ "的数据")).
Proof.
  intros Hfind.
  unfold hideRowsWhere, sheetOf. cbn [getSheetData]. rewrite Hfind.
  rewrite rowsToHide_by_number.
  destruct (filter _ _); reflexivity.
Qed.

Lemma hideRowsWhere_hides_exactly_matching_rows_witness :
  hideRowsWhere (sheetOf statusSheet) (PStr "status") (PStr "archived")
  = ([hideRow [2; 4]],
     succeeded ("已隐藏 2 行包含" ++ dquote ++ "archived" ++ dquote ++ "的数据")).
Proof.
  exact (hideRowsWhere_hides_exactly_matching_rows
           (hd [] statusSheet) (tl statusSheet)
           (PStr "status") (PStr "archived") 0 eq_refl).
Defined.

(** X4. [showAllRows] undoes [hideRowsWhere]: on the same sheet data,
    every row that [hideRowsWhere] hides is among the rows that
    [showAllRows] asks the widget to show. *)
Theorem showAllRows_covers_hidden_rows
    (data : Grid) (columnName contains : Prim) (rows : list nat) :
  In (hideRow rows) (fst (hideRowsWhere (sheetOf data) columnName contains)) ->
  exists all,
    fst (showAllRows (sheetOf data)) = [showRow all] /\ incl rows all.
Proof.
  intros Hhidden.
  exists (seq 0 (List.length data)). split; [reflexivity |].
  destruct data as [| headerRow rest]; [contradiction |].
  unfold hideRowsWhere, sheetOf in Hhidden. cbn [getSheetData] in Hhidden.
  destruct (findColumn headerRow columnName) as [colIndex |]; [| contradiction].
  cbn [fst] in Hhidden.
  destruct (0 <? List.length (rowsToHide (headerRow :: rest) colIndex contains))%nat;
    [| contradiction].
  destruct Hhidden as [Heq | []]. injection Heq as <-.
  rewrite rowsToHide_by_number.
  intros r Hr. apply filter_In in Hr. destruct Hr as [Hr _].
  apply in_seq in Hr. apply in_seq. cbn [List.length]. lia.
Qed.

Lemma showAllRows_covers_hidden_rows_witness :
  exists all,
    fst (showAllRows (sheetOf statusSheet)) = [showRow all] /\ incl [2; 4] all.
Proof.
  apply (showAllRows_covers_hidden_rows statusSheet (PStr "status") (PStr "archived")).
  left. reflexivity.
Defined.

(** X5. [setHeaderStyle] writes to the header row only: each of its widget
    calls is the final refresh or a [setCellValue] on row 0 at a column of
    the header row, whatever [bold] and [bgColor] are. *)
Theorem setHeaderStyle_writes_only_header_row
    (headerRow : list Val) (rest : Grid) (bold bgColor : Prim) (call : SheetCall) :
  In call (fst (setHeaderStyle (sheetOf (headerRow :: rest)) bold bgColor)) ->
  call = refresh
  \/ exists c style, call = setCellValue 0 c style /\ c < List.length headerRow.
Proof.
  unfold setHeaderStyle, sheetOf. cbn [getSheetData fst].
  intros Hin. apply in_app_or in Hin. destruct Hin as [Hin | [<- | []]].
  - right. apply in_flat_map in Hin. destruct Hin as (c & Hc & Hin).
    apply in_seq in Hc.
    apply in_app_or in Hin.
    destruct Hin as [Hin | Hin];
      match type of Hin with
      | In _ (if ?b then _ else _) => destruct b
      end;
      try contradiction;
      destruct Hin as [<- | []]; eexists _, _; split; try reflexivity; lia.
  - left. reflexivity.
Qed.

Lemma setHeaderStyle_writes_only_header_row_witness :
  setCellValue 0 1 {| bl := Some 1%Z; fc := None; bg := None |} = refresh
  \/ exists c style,
       setCellValue 0 1 {| bl := Some 1%Z; fc := None; bg := None |}
       = setCellValue 0 c style
       /\ c < 3.
Proof.
  apply (setHeaderStyle_writes_only_header_row
           (hd [] CapabilityFacts.agesSheet) (tl CapabilityFacts.agesSheet)
           PUndef PUndef).
  cbn. tauto.
Defined.

(** X6. Whatever the sheet, every width [autoFitColumnWidth] sets lies
    between 50 and 300. *)
Theorem autoFitColumnWidth_widths_within_bounds
    (sheet : option Luckysheet) (columns : list nat) (width : nat) :
  In (setColumnWidth columns width) (fst (autoFitColumnWidth sheet)) ->
  50 <= width <= 300.
Proof.
  unfold autoFitColumnWidth.
  destruct sheet as [[[[| headerRow rest] |]] |]; cbn [getSheetData fst];
    try contradiction.
  intros Hin. apply in_app_or in Hin. destruct Hin as [Hin | [Heq | []]].
  - apply in_map_iff in Hin. destruct Hin as (c & Heq & _).
    injection Heq as _ <-. apply CapabilityFacts.maxWidth_bounds.
  - discriminate Heq.
Qed.

Lemma autoFitColumnWidth_widths_within_bounds_witness : 50 <= 60 <= 300.
Proof.
  apply (autoFitColumnWidth_widths_within_bounds
           (sheetOf CapabilityFacts.agesSheet) [0] 60).
  cbn. tauto.
Defined.

(** X7. [autoFitColumnWidth] looks at the first 100 rows only: rows from
    the 101st on change neither the widths it sets nor its result. *)
Theorem autoFitColumnWidth_reads_first_100_rows (headerRow : list Val) (rest : Grid) :
  autoFitColumnWidth (sheetOf (headerRow :: rest))
  = autoFitColumnWidth (sheetOf (headerRow :: firstn 99 rest)).
Proof.
  unfold autoFitColumnWidth, sheetOf. cbn [getSheetData].
  f_equal. f_equal. apply map_ext. intros c.
  unfold maxWidth.
  change (firstn 100 (headerRow :: rest)) with (headerRow :: firstn 99 rest).
  change (firstn 100 (headerRow :: firstn 99 rest))
    with (headerRow :: firstn 99 (firstn 99 rest)).
  rewrite firstn_firstn, Nat.min_id. reflexivity.
Qed.

(** X8. For an [outerStyle] keyword that is not a name inherited from
    [Object.prototype], [setBorder] on a sheet with data selects the whole
    data rectangle and applies a border of weight 1 for 'thin', 2 for
    'medium', 3 for 'thick' and 2 for anything else, in black, of type
    'border-outside' for 'outer', 'border-inside' for 'inner' and
    'border-all' otherwise. *)
Theorem setBorder_weight_of_keyword
    (headerRow : list Val) (rest : Grid) (type innerStyle : Prim) (keyword : string) :
  existsb (String.eqb keyword) Object_prototype_names = false ->
  fst (setBorder (sheetOf (headerRow :: rest)) type (PStr keyword) innerStyle)
  = [ setRangeShow (0, Z.of_nat (List.length (headerRow :: rest)) - 1)%Z
                   (0, Z.of_nat (List.length headerRow) - 1)%Z;
      setBorderInfo
        {| rangeType := "range";
           borderType :=
             match default (PStr "all") type with
             | PStr "outer" => "border-outside"
             | PStr "inner" => "border-inside"
             | _ => "border-all"
             end;
           borderStyle := Weight (weightOf keyword);
           borderColor := "#000000" |} ].
Proof.
  intros Hown.
  unfold setBorder, sheetOf. cbn [getSheetData fst default toStringP].
  rewrite (CapabilityFacts.styleMap_weight keyword Hown).
  repeat f_equal.
  destruct (default (PStr "all") type) as [| | | | | t]; try reflexivity.
  cbn [strict_eq_string].
  destruct (String.eqb_spec "outer" t) as [<- | Houter]; [reflexivity |].
  destruct (String.eqb_spec "inner" t) as [<- | Hinner]; [reflexivity |].
  repeat match goal with
         | |- context [match ?s with EmptyString => _ | String _ _ => _ end] =>
             destruct s; try reflexivity
         | |- context [match ?a with Ascii _ _ _ _ _ _ _ _ => _ end] =>
             destruct a
         | |- context [if ?b then _ else _] => destruct b; try reflexivity
         end; congruence.
Qed.

Lemma setBorder_weight_of_keyword_witness :
  fst (setBorder (sheetOf CapabilityFacts.agesSheet) (PStr "outer") (PStr "thick") PUndef)
  = [ setRangeShow (0, 3)%Z (0, 2)%Z;
      setBorderInfo
        {| rangeType := "range";
           borderType := "border-outside";
           borderStyle := Weight 3;
           borderColor := "#000000" |} ].
Proof.
  exact (setBorder_weight_of_keyword
           (hd [] CapabilityFacts.agesSheet) (tl CapabilityFacts.agesSheet)
           (PStr "outer") PUndef "thick" eq_refl).
Defined.

(** X9. [sortByColumn] sorts by the first column whose header reads as the
    column name: it selects the data rows 1 to the last (never the header
    row) across the header's columns and orders them by that column, in
    ascending order unless [ascending] is given. *)
Theorem sortByColumn_sorts_by_first_match
    (before after : list Val) (cell : Val) (rest : Grid)
    (columnName : string) (ascending : Prim) :
  (forall other, In other before ->
                 toString (headerCellValue other) <> columnName) ->
  toString (headerCellValue cell) = columnName ->
  fst (sortByColumn (sheetOf ((before ++ cell :: after) :: rest))
         (PStr columnName) ascending)
  = [ setRangeShow (1, Z.of_nat (List.length ((before ++ cell :: after) :: rest)) - 1)%Z
                   (0, Z.of_nat (List.length (before ++ cell :: after)) - 1)%Z;
      orderByRow (List.length before) (default (PBool true) ascending) ].
Proof.
  intros Hbefore Hcell.
  unfold sortByColumn, sheetOf, findColumn. cbn [getSheetData].
  rewrite (findColumnFrom_at before after cell columnName 0 Hbefore Hcell).
  cbn [fst Nat.add].
  destruct before; reflexivity.
Qed.

Lemma sortByColumn_sorts_by_first_match_witness :
  fst (sortByColumn (sheetOf CapabilityFacts.agesSheet) (PStr "age") PUndef)
  = [ setRangeShow (1, 3)%Z (0, 2)%Z; orderByRow 1 (PBool true) ].
Proof.
  apply (sortByColumn_sorts_by_first_match
           [Obj {| cell_v := PStr "name"; cell_m := PStr "name" |}]
           [Bare PNull]
           (Obj {| cell_v := PStr "age"; cell_m := PStr "age" |})
           (tl CapabilityFacts.agesSheet) "age" PUndef).
  - intros other [<- | []]. discriminate.
  - reflexivity.
Defined.

(** X10. A column parameter that is not a string (a command without its
    [column] property passes [undefined]) is never found: on a sheet with
    data the three column-addressed capabilities fail with '找不到列: '
    followed by the parameter's string form ('undefined', 'null', a
    number), and make no call on the widget. *)
Theorem non_string_column_is_never_found
    (headerRow : list Val) (rest : Grid)
    (columnName operator value color bgColor contains ascending : Prim) :
  (forall s, columnName <> PStr s) ->
  setConditionalFormat (sheetOf (headerRow :: rest)) columnName
    operator value color bgColor
  = ([], failed ("找不到列: " ++ toStringP columnName))
  /\ hideRowsWhere (sheetOf (headerRow :: rest)) columnName contains
     = ([], failed ("找不到列: " ++ toStringP columnName))
  /\ sortByColumn (sheetOf (headerRow :: rest)) columnName ascending
     = ([], failed ("找不到列: " ++ toStringP columnName)).
Proof.
  intros Hnot.
  pose proof (findColumn_non_string headerRow columnName 0 Hnot) as Hfind.
  unfold setConditionalFormat, hideRowsWhere, sortByColumn, sheetOf, findColumn.
  cbn [getSheetData]. rewrite Hfind.
  repeat split; reflexivity.
Qed.

Lemma non_string_column_is_never_found_witness :
  setConditionalFormat (sheetOf CapabilityFacts.agesSheet) PUndef
    (PStr ">") (PNum 30) PUndef PUndef
  = ([], failed "找不到列: undefined")
  /\ hideRowsWhere (sheetOf CapabilityFacts.agesSheet) PUndef (PStr "x")
     = ([], failed "找不到列: undefined")
  /\ sortByColumn (sheetOf CapabilityFacts.agesSheet) PUndef PUndef
     = ([], failed "找不到列: undefined").
Proof.
  apply (non_string_column_is_never_found
           (hd [] CapabilityFacts.agesSheet) (tl CapabilityFacts.agesSheet)
           PUndef (PStr ">") (PNum 30) PUndef PUndef (PStr "x") PUndef).
  intros s. discriminate.
Defined.

End CapabilityMore.

(** ** Frame rules for the component's actions *)

Module FrameFacts.
Import Js SheetController Json App Spec Frames.

Local Open Scope action_scope.

Section WithHost.
Context {host : Host}.

Section OneField.
Context {X : Type} (field : AppState -> X).

Lemma kf_ret {A : Type} (a : A) : keepsField field (ret a).
Proof. intros w. reflexivity. Qed.

Lemma kf_bind {A B : Type} (c : M A) (k : A -> M B) :
  keepsField field c -> (forall a, keepsField field (k a)) ->
  keepsField field (bind c k).
Proof.
  intros Hc Hk w. unfold bind.
  specialize (Hc w). destruct (c w) as [a w1]. cbn [snd] in Hc.
  rewrite (Hk a w1). exact Hc.
Qed.

Lemma kf_emit (e : Event) : keepsField field (emit e).
Proof. intros w. reflexivity. Qed.

Lemma kf_request (q : Request) : keepsField field (request q).
Proof. intros w. unfold request. now destruct (serve q (backend w)). Qed.

Lemma kf_invoke (call : SheetCall) : keepsField field (invoke call).
Proof. intros w. reflexivity. Qed.

Lemma kf_readSheet : keepsField field readSheet.
Proof. intros w. reflexivity. Qed.

Lemma kf_update (f : AppState -> AppState) :
  (forall s, field (f s) = field s) -> keepsField field (update f).
Proof. intros Hf w. apply Hf. Qed.

Lemma kf_forEach {A : Type} (items : list A) (body : A -> M unit) :
  (forall x, keepsField field (body x)) -> keepsField field (forEach items body).
Proof.
  intros Hbody. induction items as [| x items IH]; cbn [forEach].
  - apply kf_ret.
  - apply kf_bind; auto.
Qed.

End OneField.

End WithHost.

Ltac frame :=
  repeat first
    [ apply kf_ret
    | apply kf_emit
    | apply kf_request
    | apply kf_invoke
    | apply kf_readSheet
    | apply kf_update; intros ?; reflexivity
    | apply kf_forEach; intros ?
    | apply kf_bind; [| intros ?]
    | match goal with
      | |- keepsField _ (match ?x with _ => _ end) => destruct x
      | |- keepsField _ (let (_, _) := ?x in _) => destruct x
      end ].

Section Actions.
Context {host : Host}.

Lemma executeUICommand_keeps_app (command : Command) :
  keepsField (fun s => s) (executeUICommand command).
Proof. unfold executeUICommand. frame. Qed.

Lemma loadTableData_keeps_outsideView (tableName : string) :
  keepsField outsideView (loadTableData tableName).
Proof. unfold loadTableData. frame. Qed.

Lemma loadTables_keeps_outsideTables (closedOver : option string) :
  keepsField outsideTables (loadTables closedOver).
Proof. unfold loadTables. frame. Qed.

Lemma renderResult_keeps_outsideView (dataRows : list Row) :
  keepsField outsideView (renderResult dataRows).
Proof. unfold renderResult. frame. Qed.

Lemma dispatchData_keeps_chat
    (closedOver : option string) (p : QueryPayload) (answer : string) :
  keepsField chat (dispatchData closedOver p answer).
Proof.
  unfold dispatchData.
  frame; try (unfold loadTables; frame); try (unfold loadTableData; frame).
Qed.

Lemma dispatchAnswer_keeps_chat
    (closedOver : option string) (p : QueryPayload) (answer : string) :
  keepsField chat (dispatchAnswer closedOver p answer).
Proof.
  unfold dispatchAnswer.
  frame; try (unfold renderResult; frame); try (unfold loadTableData; frame).
Qed.

(** The requests of the two loaders. *)
Lemma requests_snoc (t : list Event) (e : Event) :
  requests (t ++ [e]) = requests t ++ requests [e].
Proof. apply flat_map_app. Qed.

Lemma loadTableData_requests (tableName : string) (w : World) :
  requests (trace (snd (loadTableData tableName w)))
  = requests (trace w) ++ [POST_data_view tableName 0 10000].
Proof.
  unfold loadTableData, bind, request.
  destruct (serve (POST_data_view tableName 0 10000) (backend w)) as [[message | data] b].
  - cbn. rewrite !requests_snoc. cbn. now rewrite app_nil_r.
  - destruct (viewSuccess data); cbn; now rewrite requests_snoc.
Qed.

Lemma loadTableData_activeTab (tableName : string) (w : World) :
  activeTab (app w) = Some tableName ->
  activeTab (app (snd (loadTableData tableName w))) = Some tableName.
Proof.
  intros Hactive. unfold loadTableData, bind, request.
  destruct (serve (POST_data_view tableName 0 10000) (backend w)) as [[message | data] b].
  - exact Hactive.
  - destruct (viewSuccess data); [reflexivity | exact Hactive].
Qed.

Lemma loadTables_requests_with_tab (closedOver : option string) (w : World) :
  present closedOver = true ->
  requests (trace (snd (loadTables closedOver w))) = requests (trace w) ++ [GET_tables]
  /\ activeTab (app (snd (loadTables closedOver w))) = activeTab (app w)
  /\ sheetData (app (snd (loadTables closedOver w))) = sheetData (app w).
Proof.
  intros Hpresent. unfold loadTables, bind, request. rewrite Hpresent.
  destruct (serve GET_tables (backend w)) as [[message | data] b].
  - cbn. rewrite !requests_snoc. cbn. now rewrite app_nil_r.
  - destruct (tablesSuccess data); [| cbn; now rewrite requests_snoc].
    destruct (tablesData data) as [| [firstName [nrows ncols]] others];
      cbn; now rewrite requests_snoc.
Qed.

Lemma loadTables_requests (closedOver : option string) (w : World) :
  exists more,
    requests (trace (snd (loadTables closedOver w)))
    = requests (trace w) ++ GET_tables :: more.
Proof.
  unfold loadTables. unfold bind at 1. unfold request.
  destruct (serve GET_tables (backend w)) as [[message | data] b].
  - exists []. cbn. rewrite !requests_snoc. cbn. now rewrite app_nil_r.
  - destruct (tablesSuccess data); [| exists []; cbn; now rewrite requests_snoc].
    destruct (tablesData data) as [| [firstName [nrows ncols]] others].
    + exists []. cbn. now rewrite requests_snoc.
    + cbn [map]. unfold bind at 1. unfold update at 1. cbn [name].
      destruct (negb (present closedOver)).
      * unfold bind at 1. unfold update at 1.
        rewrite loadTableData_requests. cbn [trace].
        rewrite requests_snoc, <- app_assoc. cbn. eexists. reflexivity.
      * exists []. cbn. now rewrite requests_snoc.
Qed.

End Actions.

End FrameFacts.

(** ** More on the executor and the poller *)

Module ExecutorMore.
Import Js SheetController Json App Spec Frames FrameFacts.

Local Open Scope action_scope.

Section WithHost.
Context {host : Host}.

(** X11. With no [window.luckysheet], a command naming any of the nine
    capabilities is answered with the failure 'Sheet not available'; the
    executor logs the command and does nothing else. *)
Theorem known_command_without_sheet (command : Command) (a : string) (w : World) :
  action command = PStr a ->
  In a capabilityNames ->
  getLuckysheet (widget w) = None ->
  executeUICommand command w
  = (failed "Sheet not available",
     {| app := app w; backend := backend w; widget := widget w;
        trace := trace w ++ [console_log (UI_Command command)] |}).
Proof.
  intros Haction Hknown Hsheet.
  unfold executeUICommand, bind, emit, readSheet. cbn [app backend widget trace].
  rewrite Hsheet. unfold capabilityOf. rewrite Haction.
  cbn in Hknown.
  repeat (destruct Hknown as [<- | Hknown]; [reflexivity |]).
  contradiction.
Qed.

(** X12. A poll tick that comes back with nothing to do (the fetch fails,
    the reply says [success: false], or the queue is empty) executes no
    command and reports nothing: component and widget are untouched and the
    trace gains only the fetch itself. *)
Theorem idle_poll_tick (w : World) (reply : Fetched PendingReply) (b : Backend) :
  serve GET_ui_pending (backend w) = (reply, b) ->
  nothingPending reply ->
  pollUICommands w
  = (tt, {| app := app w; backend := b; widget := widget w;
            trace := trace w ++ [fetch GET_ui_pending] |}).
Proof.
  intros Hserve Hidle.
  unfold pollUICommands. unfold bind at 1. unfold request. rewrite Hserve.
  destruct reply as [message | data]; [reflexivity |].
  cbn in Hidle. destruct Hidle as [-> | ->]; [reflexivity |].
  now rewrite andb_false_r.
Qed.

(** X13. Whatever the backend queues and whatever the widget does, a poll
    tick never changes the component state: commands act on the widget
    only. *)
Theorem poll_never_changes_component_state (w : World) :
  app (snd (pollUICommands w)) = app w.
Proof.
  revert w. change (keepsField (fun s => s) pollUICommands).
  unfold pollUICommands. frame.
Qed.

End WithHost.

Lemma known_command_without_sheet_witness :
  executeUICommand (commandNamed "showAllRows") (freshWorld offline)
  = (failed "Sheet not available",
     {| app := initialState; backend := offline; widget := None;
        trace := [console_log (UI_Command (commandNamed "showAllRows"))] |}).
Proof.
  apply (known_command_without_sheet (host := tableHost)
           (commandNamed "showAllRows") "showAllRows" (freshWorld offline)).
  - reflexivity.
  - cbn. tauto.
  - reflexivity.
Defined.

Lemma idle_poll_tick_witness :
  pollUICommands (freshWorld offline)
  = (tt, {| app := initialState; backend := offline; widget := None;
            trace := [fetch GET_ui_pending] |}).
Proof.
  apply (idle_poll_tick (host := tableHost) (freshWorld offline)
           (Rejected "Failed to fetch") offline).
  - reflexivity.
  - exact I.
Defined.

End ExecutorMore.

(** ** More on the component: loaders, dispatcher, handlers *)

Module ComponentMore.
Import Js SheetController Json App Spec Frames FrameFacts.

Local Open Scope action_scope.

(** Reduce projections of updated states and worlds, nothing else. *)
Ltac expose :=
  cbn [snd fst app backend widget trace
       messages inputValue isLoading tables sheetData activeTab
       confirmData showConfirmModal saveAsName
       setMessages setIsLoading setInputValue setTables setSheetData
       setActiveTab setConfirmData setShowConfirmModal setSaveAsName].

Tactic Notation "expose" "in" hyp(H) :=
  cbn [snd fst app backend widget trace
       messages inputValue isLoading tables sheetData activeTab
       confirmData showConfirmModal saveAsName
       setMessages setIsLoading setInputValue setTables setSheetData
       setActiveTab setConfirmData setShowConfirmModal setSaveAsName] in H.

(** *** The cells of a view *)

Lemma in_numbered {A : Type} (items : list A) (k i : nat) (x : A) :
  In (i, x) (combine (seq k (List.length items)) items)
  <-> k <= i /\ nth_error items (i - k) = Some x.
Proof.
  revert k.
  induction items as [| y items IH]; intros k; cbn [List.length seq combine].
  - split; [contradiction |]. intros [_ H]. now destruct (i - k).
  - cbn [In]. rewrite IH. split.
    + intros [Heq | [Hle Hnth]].
      * injection Heq as <- <-. rewrite Nat.sub_diag. auto.
      * split; [lia |]. replace (i - k) with (S (i - S k)) by lia. exact Hnth.
    + intros [Hle Hnth].
      destruct (Nat.eq_dec i k) as [-> | Hne].
      * rewrite Nat.sub_diag in Hnth. injection Hnth as <-. now left.
      * right. split; [lia |].
        replace (i - k) with (S (i - S k)) in Hnth by lia. exact Hnth.
Qed.

Lemma in_indexed {A : Type} (items : list A) (i : nat) (x : A) :
  In (i, x) (indexed items) <-> nth_error items i = Some x.
Proof.
  unfold indexed. rewrite in_numbered, Nat.sub_0_r. intuition lia.
Qed.

Lemma indexed_bound {A : Type} (items : list A) (i : nat) (x : A) :
  In (i, x) (indexed items) -> i < List.length items.
Proof.
  intros Hin. apply in_indexed in Hin.
  apply nth_error_Some. congruence.
Qed.

Lemma headerCells_in (columns : list string) (cell : CellEntry) :
  In cell (headerCells columns) ->
  r cell = 0 /\ c cell < List.length columns /\ v cell <> JNull.
Proof.
  unfold headerCells. intros Hin. apply in_map_iff in Hin.
  destruct Hin as ([i col] & <- & Hin). apply indexed_bound in Hin.
  cbn. repeat split; [exact Hin | discriminate].
Qed.

Lemma rowCells_in (columns : list string) (n : nat) (row : Row) (cell : CellEntry) :
  In cell (rowCells columns n row) ->
  r cell = n + 1 /\ c cell < List.length columns /\ v cell <> JNull.
Proof.
  unfold rowCells. intros Hin. apply in_flat_map in Hin.
  destruct Hin as ([i col] & Hcol & Hin). apply indexed_bound in Hcol.
  destruct (get row col) as [[] |]; try contradiction;
    destruct Hin as [<- | []]; cbn; repeat split; auto; discriminate.
Qed.

Lemma dataCells_in (columns : list string) (rows : list Row) (cell : CellEntry) :
  In cell (dataCells columns rows) ->
  1 <= r cell <= List.length rows /\ c cell < List.length columns /\ v cell <> JNull.
Proof.
  unfold dataCells. intros Hin. apply in_flat_map in Hin.
  destruct Hin as ([n row] & Hrow & Hin). apply indexed_bound in Hrow.
  apply rowCells_in in Hin. destruct Hin as (Hr & Hc & Hv).
  repeat split; auto; lia.
Qed.

Lemma view_cells_in (columns : list string) (rows : list Row) (cell : CellEntry) :
  In cell (headerCells columns ++ dataCells columns rows) ->
  r cell <= List.length rows /\ c cell < List.length columns /\ v cell <> JNull.
Proof.
  intros Hin. apply in_app_or in Hin. destruct Hin as [Hin | Hin].
  - apply headerCells_in in Hin. destruct Hin as (Hr & Hc & Hv).
    repeat split; auto; lia.
  - apply dataCells_in in Hin. destruct Hin as (Hr & Hc & Hv).
    repeat split; auto; lia.
Qed.

Section WithHost.
Context {host : Host}.

Lemma loadTableData_replied
    (w : World) (tableName : string) (data : ViewReply) (b : Backend) :
  serve (POST_data_view tableName 0 10000) (backend w) = (Replied data, b) ->
  viewSuccess data = true ->
  loadTableData tableName w
  = (tt,
     {| app :=
          setSheetData
            [ sheetView tableName (viewColumns data) (viewRows data)
                (if (0 <? List.length (viewColumns data))%nat
                 then headerCells (viewColumns data)
                        ++ dataCells (viewColumns data) (viewRows data)
                 else []) ]
            (setActiveTab (Some tableName) (app w));
        backend := b;
        widget := widget w;
        trace := trace w ++ [fetch (POST_data_view tableName 0 10000)] |}).
Proof.
  intros Hserve Hsuccess.
  unfold loadTableData, bind, request. rewrite Hserve, Hsuccess. reflexivity.
Qed.

(** X14. When the view request succeeds, [loadTableData] makes the table
    the active one and replaces the sheet by one view named after it.
    Every cell of that view lies inside the dimensions the view declares
    and holds a value that is not null, the header row has one cell per
    column carrying the column's name, and nothing outside the active tab
    and the sheet changes. *)
Theorem loaded_view_is_well_formed
    (w : World) (tableName : string) (data : ViewReply) (b : Backend) :
  serve (POST_data_view tableName 0 10000) (backend w) = (Replied data, b) ->
  viewSuccess data = true ->
  exists view,
    sheetData (app (snd (loadTableData tableName w))) = [view]
    /\ activeTab (app (snd (loadTableData tableName w))) = Some tableName
    /\ viewName view = tableName
    /\ (forall cell, In cell (celldata view) ->
                     r cell < row view /\ c cell < column_ view /\ v cell <> JNull)
    /\ (forall i col, nth_error (viewColumns data) i = Some col ->
                      In {| r := 0; c := i; v := JStr col; m := col |} (celldata view))
    /\ outsideView (app (snd (loadTableData tableName w))) = outsideView (app w).
Proof.
  intros Hserve Hsuccess.
  rewrite (loadTableData_replied w tableName data b Hserve Hsuccess).
  eexists. split; [reflexivity |].
  cbn [snd app activeTab setSheetData setActiveTab sheetView viewName celldata row column_].
  split; [reflexivity |]. split; [reflexivity |].
  split; [| split; [| reflexivity]].
  - intros cell Hin.
    destruct (0 <? List.length (viewColumns data))%nat; [| contradiction].
    apply view_cells_in in Hin. repeat split; try tauto; lia.
  - intros i col Hcol.
    assert (Hlen : i < List.length (viewColumns data))
      by (apply nth_error_Some; congruence).
    destruct (Nat.ltb_spec 0 (List.length (viewColumns data))) as [_ | Hzero]; [| lia].
    apply in_or_app. left. unfold headerCells.
    apply in_map_iff. exists (i, col). split; [reflexivity |].
    apply in_indexed. exact Hcol.
Qed.

Lemma loadTables_first_load
    (w : World) (closedOver : option string) (data : TablesReply) (b : Backend)
    (firstName : string) (info : Z * Z) (others : list (string * (Z * Z))) :
  present closedOver = false ->
  serve GET_tables (backend w) = (Replied data, b) ->
  tablesSuccess data = true ->
  tablesData data = (firstName, info) :: others ->
  loadTables closedOver w
  = loadTableData firstName
      {| app :=
           setActiveTab (Some firstName)
             (setTables
                (map (fun '(name, (rows, columns)) =>
                        {| name := name; rows := rows; columns := columns |})
                     (tablesData data))
                (app w));
         backend := b;
         widget := widget w;
         trace := trace w ++ [fetch GET_tables] |}.
Proof.
  intros Hnone Hserve Hsuccess Hdata.
  unfold loadTables. unfold bind at 1. unfold request.
  rewrite Hserve, Hsuccess, Hdata, Hnone. destruct info as [nrows ncols].
  reflexivity.
Qed.

(** X15. On a first load (no active tab yet), when the backend lists at
    least one table [loadTables] stores the list, makes the first table
    the active one and requests its view: the active tab ends as that
    table whether or not the view request succeeds, and the requests sent
    are the table list and that one view. *)
Theorem first_load_selects_first_table
    (w : World) (closedOver : option string) (data : TablesReply) (b : Backend)
    (firstName : string) (info : Z * Z) (others : list (string * (Z * Z))) :
  present closedOver = false ->
  serve GET_tables (backend w) = (Replied data, b) ->
  tablesSuccess data = true ->
  tablesData data = (firstName, info) :: others ->
  activeTab (app (snd (loadTables closedOver w))) = Some firstName
  /\ map name (tables (app (snd (loadTables closedOver w))))
     = map fst (tablesData data)
  /\ requests (trace (snd (loadTables closedOver w)))
     = requests (trace w) ++ [GET_tables; POST_data_view firstName 0 10000].
Proof.
  intros Hnone Hserve Hsuccess Hdata.
  rewrite (loadTables_first_load w closedOver data b firstName info others
             Hnone Hserve Hsuccess Hdata).
  match goal with
  | |- context [loadTableData firstName ?w1] => set (w2 := w1)
  end.
  repeat split.
  - apply loadTableData_activeTab. reflexivity.
  - pose proof (loadTableData_keeps_outsideView firstName w2) as Hkeep.
    unfold outsideView in Hkeep.
    assert (Htables : tables (app (snd (loadTableData firstName w2))) = tables (app w2))
      by congruence.
    rewrite Htables. subst w2. cbn [app tables setActiveTab setTables].
    rewrite map_map. apply map_ext. now intros [n [x y]].
  - rewrite loadTableData_requests. subst w2. cbn [trace].
    rewrite requests_snoc, <- app_assoc. reflexivity.
Qed.

(** *** The dispatcher *)

Lemma dispatch_branch_keeps_chat (closedOver : option string) (p : QueryPayload) :
  keepsField chat
    (if or_else (response_type p) "answer" =? "clarify" then ret ("❓", answerOf p)
     else if or_else (response_type p) "answer" =? "error"
          then ret ("❌", or_text (answerOf p) "操作失败")
     else if or_else (response_type p) "answer" =? "data"
          then dispatchData closedOver p (answerOf p)
     else if or_else (response_type p) "answer" =? "ui"
          then ret ("🎨", or_text (answerOf p) "样式已更新")
     else dispatchAnswer closedOver p (answerOf p)).
Proof.
  frame.
  - apply dispatchData_keeps_chat.
  - apply dispatchAnswer_keeps_chat.
Qed.

Lemma dispatchResponse_shape
    (closedOver : option string) (p : QueryPayload) (w : World) :
  exists icon resultText w1,
    dispatchResponse closedOver p w
    = update
        (setMessages
           (append {| role := "assistant";
                      content := icon ++ " " ++ resultText;
                      loading := false;
                      responseType := Some (or_else (response_type p) "answer") |}))
        w1
    /\ chat (app w1) = chat (app w).
Proof.
  unfold dispatchResponse, bind.
  match goal with
  | |- context [let (a, w') := ?branch w in _] =>
      pose proof (dispatch_branch_keeps_chat closedOver p w
                  : chat (app (snd (branch w))) = chat (app w)) as Hkeep;
      destruct (branch w) as [[icon resultText] w1]
  end.
  exists icon, resultText, w1. split; [reflexivity | exact Hkeep].
Qed.

(** X16. Whatever the response, the dispatcher adds exactly one message to
    the chat, after all earlier ones, which it leaves as they were: an
    assistant message, not a loading placeholder, tagged with the response
    kind ('answer' when the response names none).  It touches neither the
    input nor the loading flag. *)
Theorem dispatch_appends_one_message
    (closedOver : option string) (p : QueryPayload) (w : World) :
  exists text,
    messages (app (snd (dispatchResponse closedOver p w)))
    = messages (app w)
        ++ [ {| role := "assistant"; content := text; loading := false;
                responseType := Some (or_else (response_type p) "answer") |} ]
    /\ inputValue (app (snd (dispatchResponse closedOver p w))) = inputValue (app w)
    /\ isLoading (app (snd (dispatchResponse closedOver p w))) = isLoading (app w).
Proof.
  destruct (dispatchResponse_shape closedOver p w)
    as (icon & resultText & w1 & Hrun & Hkeep).
  rewrite Hrun. unfold chat in Hkeep. injection Hkeep as Hm Hi Hl.
  exists (icon ++ " " ++ resultText)%string.
  cbn. rewrite Hm, Hi, Hl. auto.
Qed.

(** X17. A response of kind 'clarify', 'error' or 'ui' only adds its
    message: table list, sheet, active tab and confirmation state stay as
    they were, nothing is sent to the backend and nothing is logged. *)
Theorem notice_kinds_only_add_a_message
    (closedOver : option string) (p : QueryPayload) (kind : string) (w : World) :
  response_type p = Some kind ->
  In kind ["clarify"; "error"; "ui"] ->
  exists text,
    snd (dispatchResponse closedOver p w)
    = {| app :=
           setMessages
             (append {| role := "assistant"; content := text; loading := false;
                        responseType := Some kind |})
             (app w);
         backend := backend w;
         widget := widget w;
         trace := trace w |}.
Proof.
  intros Hkind Hin.
  unfold dispatchResponse. rewrite Hkind.
  destruct Hin as [<- | [<- | [<- | []]]]; eexists; reflexivity.
Qed.

Lemma dispatch_data_without_temp_table
    (tab : string) (p : QueryPayload) (w : World) :
  response_type p = Some "data" ->
  present (payloadTempTable p) = false ->
  tab <> EmptyString ->
  dispatchResponse (Some tab) p w
  = update
      (setMessages
         (append {| role := "assistant";
                    content := "✅ " ++ or_text (answerOf p) "数据操作完成";
                    loading := false;
                    responseType := Some "data" |}))
      (snd (loadTableData tab (snd (loadTables (Some tab) w)))).
Proof.
  intros Hkind Habsent Hnonempty.
  apply String.eqb_neq in Hnonempty.
  unfold dispatchResponse, dispatchData. rewrite Hkind.
  cbn [or_else present String.eqb Ascii.eqb Bool.eqb negb].
  rewrite Hnonempty. cbn [negb].
  assert (Hbranch :
            forall k : M (string * string),
              match payloadTempTable p with
              | Some tempTable =>
                  if present (payloadTempTable p)
                  then
                    emit (console_log (Temp_table_intercepted tempTable)) ;;
                    update (setConfirmData
                              (Some {| temp_table := tempTable; answer := answerOf p |})) ;;
                    update (setSaveAsName (replace_first tempTable "t_ai_temp_" "新表格_")) ;;
                    update (setShowConfirmModal true) ;;
                    ret ("✅", (answerOf p ++ " (等待确认...)")%string)
                  else k
              | None => k
              end = k).
  { intros k. rewrite Habsent. now destruct (payloadTempTable p). }
  rewrite Hbranch.
  unfold bind.
  destruct (loadTables (Some tab) w) as [u1 w1]. cbn [snd].
  destruct (loadTableData tab w1) as [u2 w2]. reflexivity.
Qed.

(** X18. A 'data' response without a temp table, with a table active:
    the dispatcher refreshes the table list and then reloads the active
    table's view, exactly those two requests in that order, shows the
    answer (or '数据操作完成'), and leaves the confirmation state alone. *)
Theorem data_without_temp_table_refreshes
    (tab : string) (p : QueryPayload) (w : World) :
  response_type p = Some "data" ->
  present (payloadTempTable p) = false ->
  tab <> EmptyString ->
  requests (trace (snd (dispatchResponse (Some tab) p w)))
  = requests (trace w) ++ [GET_tables; POST_data_view tab 0 10000]
  /\ messages (app (snd (dispatchResponse (Some tab) p w)))
     = messages (app w)
         ++ [ {| role := "assistant";
                 content := "✅ " ++ or_text (answerOf p) "数据操作完成";
                 loading := false;
                 responseType := Some "data" |} ]
  /\ confirmData (app (snd (dispatchResponse (Some tab) p w))) = confirmData (app w)
  /\ showConfirmModal (app (snd (dispatchResponse (Some tab) p w)))
     = showConfirmModal (app w).
Proof.
  intros Hkind Habsent Hnonempty.
  rewrite (dispatch_data_without_temp_table tab p w Hkind Habsent Hnonempty).
  assert (Hpresent : present (Some tab) = true).
  { cbn. apply String.eqb_neq in Hnonempty. now rewrite Hnonempty. }
  destruct (loadTables_requests_with_tab (Some tab) w Hpresent) as (Hreq1 & _ & _).
  pose proof (loadTables_keeps_outsideTables (Some tab) w) as Hkeep1.
  set (w1 := snd (loadTables (Some tab) w)) in *.
  pose proof (loadTableData_requests tab w1) as Hreq2.
  pose proof (loadTableData_keeps_outsideView tab w1) as Hkeep2.
  set (w2 := snd (loadTableData tab w1)) in *.
  unfold outsideTables in Hkeep1. unfold outsideView in Hkeep2.
  injection Hkeep1 as Hm1 _ _ Hc1 Hs1 _.
  injection Hkeep2 as Hm2 _ _ _ Hc2 Hs2 _.
  cbn [update snd app trace messages confirmData showConfirmModal setMessages append].
  rewrite Hreq2, Hreq1, <- app_assoc.
  unfold append. rewrite Hm2, Hm1.
  repeat split; congruence.
Qed.

(** X19. A response that falls to the legacy 'answer' branch with no
    answer text and an array result that is not a single row of at most
    three fields is summarised by its row count: the chat gets
    '💡 查询成功，返回 N 条结果'.  When the first row has at least one
    field the sheet is replaced by one view named 'AI 结果', with a header
    cell per field of the first row and the rows below; when the array is
    empty or its first row has no fields the sheet is left as it was.
    Nothing is sent to the backend. *)
Theorem rows_result_is_rendered
    (closedOver : option string) (p : QueryPayload) (items : list Row) (w : World) :
  ~ In (or_else (response_type p) "answer") ["clarify"; "error"; "data"; "ui"] ->
  answerOf p = EmptyString ->
  result p = Rows items ->
  (forall only, items = [only] -> 3 < List.length (keys only)) ->
  snd (dispatchResponse closedOver p w)
  = {| app :=
         setMessages
           (append
              {| role := "assistant";
                 content :=
                   "💡 查询成功，返回 " ++ string_of_nat (List.length items) ++ " 条结果";
                 loading := false;
                 responseType := Some (or_else (response_type p) "answer") |})
           match items with
           | [] => app w
           | first :: _ =>
               match keys first with
               | [] => app w
               | _ :: _ =>
                   setSheetData
                     [ sheetView "AI 结果" (keys first) items
                         (headerCells (keys first) ++ dataCells (keys first) items) ]
                     (app w)
               end
           end;
       backend := backend w;
       widget := widget w;
       trace := trace w |}.
Proof.
  intros Hkind Hanswer Hresult Hmany.
  unfold dispatchResponse.
  destruct (String.eqb_spec (or_else (response_type p) "answer") "clarify") as [E | _];
    [exfalso; apply Hkind; rewrite E; cbn; tauto |].
  destruct (String.eqb_spec (or_else (response_type p) "answer") "error") as [E | _];
    [exfalso; apply Hkind; rewrite E; cbn; tauto |].
  destruct (String.eqb_spec (or_else (response_type p) "answer") "data") as [E | _];
    [exfalso; apply Hkind; rewrite E; cbn; tauto |].
  destruct (String.eqb_spec (or_else (response_type p) "answer") "ui") as [E | _];
    [exfalso; apply Hkind; rewrite E; cbn; tauto |].
  unfold dispatchAnswer. rewrite Hanswer, Hresult. cbn [String.eqb negb].
  assert (Hrender :
            renderResult items w
            = (tt, {| app :=
                        match items with
                        | [] => app w
                        | first :: _ =>
                            match keys first with
                            | [] => app w
                            | _ :: _ =>
                                setSheetData
                                  [ sheetView "AI 结果" (keys first) items
                                      (headerCells (keys first)
                                         ++ dataCells (keys first) items) ]
                                  (app w)
                            end
                        end;
                      backend := backend w; widget := widget w; trace := trace w |})).
  { unfold renderResult.
    destruct items as [| first others]; [now destruct w |].
    destruct (keys first) as [| k ks]; [now destruct w | reflexivity]. }
  destruct items as [| first [| second others]].
  - unfold bind. rewrite Hrender. reflexivity.
  - specialize (Hmany first eq_refl).
    apply Nat.leb_gt in Hmany. rewrite Hmany.
    unfold bind. rewrite Hrender. reflexivity.
  - unfold bind. rewrite Hrender. reflexivity.
Qed.

(** *** [handleSendMessage] *)

Lemma drop_spaces_blank (l : list ascii) :
  forallb is_space l = true -> drop_spaces l = [].
Proof.
  induction l as [| ch l IH]; [reflexivity |].
  cbn [forallb drop_spaces]. intros Hall. apply andb_prop in Hall.
  destruct Hall as [Hch Hl]. rewrite Hch. now apply IH.
Qed.

Lemma trim_blank (s : string) :
  forallb is_space (list_ascii_of_string s) = true -> trim s = EmptyString.
Proof.
  intros Hall. unfold trim. now rewrite (drop_spaces_blank _ Hall).
Qed.

(** X20. With an input that is empty or all white space, or while a query
    is still in flight, [handleSendMessage] does nothing at all: no
    message is added, nothing is sent. *)
Theorem blank_or_busy_send_is_ignored (w : World) :
  forallb is_space (list_ascii_of_string (inputValue (app w))) = true
  \/ isLoading (app w) = true ->
  handleSendMessage w = (tt, w).
Proof.
  intros Hguard. unfold handleSendMessage.
  destruct Hguard as [Hblank | Hbusy].
  - now rewrite (trim_blank _ Hblank).
  - rewrite Hbusy. now rewrite orb_true_r.
Qed.






(** *** The confirmation handlers, beyond failure of Commit *)

Lemma pending_variables (s : AppState) (pending : ConfirmationRequest) :
  confirmationState s = Some (PendingConfirmation pending) ->
  confirmData s = Some pending /\ showConfirmModal s = true.
Proof.
  unfold confirmationState.
  destruct (confirmData s), (showConfirmModal s); try discriminate.
  intros H. injection H as ->. auto.
Qed.

Lemma handleConfirmSaveAs_sent
    (w : World) (pending : ConfirmationRequest)
    (reply : Fetched ResolveReply) (b : Backend) :
  confirmData (app w) = Some pending ->
  saveAsName (app w) <> EmptyString ->
  serve (POST_table_rename (temp_table pending) (saveAsName (app w))) (backend w)
  = (reply, b) ->
  handleConfirmSaveAs w
  = match reply with
    | Replied data =>
        if resolveSuccess data
        then
          update (setMessages
                    (append (assistant ("✅ 已保存为新表 " ++ dquote
                                          ++ saveAsName (app w) ++ dquote)))) ;;
          update (setShowConfirmModal false) ;;
          update (setConfirmData None) ;;
          loadTables (activeTab (app w)) ;;
          update (setActiveTab (Some (saveAsName (app w)))) ;;
          loadTableData (saveAsName (app w))
        else emit (alert ("保存失败: " ++ toStringP (resolveMessage data)))
    | Rejected _ => emit (alert "请求失败")
    end
      {| app := app w; backend := b; widget := widget w;
         trace := trace w
                  ++ [fetch (POST_table_rename (temp_table pending) (saveAsName (app w)))] |}.
Proof.
  intros Hdata Hname Hserve.
  apply String.eqb_neq in Hname.
  unfold handleConfirmSaveAs. rewrite Hdata, Hname.
  unfold bind at 1. unfold request. rewrite Hserve. reflexivity.
Qed.

Lemma handleConfirmOverwrite_sent
    (w : World) (pending : ConfirmationRequest) (tab : string)
    (reply : Fetched ResolveReply) (b : Backend) :
  confirmData (app w) = Some pending ->
  activeTab (app w) = Some tab ->
  tab <> EmptyString ->
  serve (POST_table_overwrite (temp_table pending) tab) (backend w) = (reply, b) ->
  handleConfirmOverwrite w
  = match reply with
    | Replied data =>
        if resolveSuccess data
        then
          update (setMessages
                    (append (assistant ("✅ 已覆盖表格 " ++ dquote ++ tab ++ dquote)))) ;;
          update (setShowConfirmModal false) ;;
          update (setConfirmData None) ;;
          loadTables (Some tab) ;;
          loadTableData tab
        else emit (alert ("覆盖失败: " ++ toStringP (resolveMessage data)))
    | Rejected _ => emit (alert "请求失败")
    end
      {| app := app w; backend := b; widget := widget w;
         trace := trace w ++ [fetch (POST_table_overwrite (temp_table pending) tab)] |}.
Proof.
  intros Hdata Htab Hnonempty Hserve.
  apply String.eqb_neq in Hnonempty.
  unfold handleConfirmOverwrite. rewrite Hdata, Htab.
  cbn [present negb]. rewrite Hnonempty. cbn [negb].
  unfold bind at 1. unfold request. rewrite Hserve. reflexivity.
Qed.

(** X23. A Save-As that the backend refuses or that fails in transport
    leaves the component state as it was, PendingConfirmation with the
    same request; the rename is the only request sent and the failure is
    shown in an alert.  With no name entered the handler does nothing. *)
Theorem saveAs_failure_stays_pending
    (w : World) (pending : ConfirmationRequest)
    (reply : Fetched ResolveReply) (b : Backend) :
  confirmationState (app w) = Some (PendingConfirmation pending) ->
  (saveAsName (app w) = EmptyString -> handleConfirmSaveAs w = (tt, w))
  /\ (saveAsName (app w) <> EmptyString ->
      serve (POST_table_rename (temp_table pending) (saveAsName (app w))) (backend w)
      = (reply, b) ->
      resolutionFailed reply ->
      app (snd (handleConfirmSaveAs w)) = app w
      /\ confirmationState (app (snd (handleConfirmSaveAs w)))
         = Some (PendingConfirmation pending)
      /\ exists text,
           trace (snd (handleConfirmSaveAs w))
           = trace w
               ++ [ fetch (POST_table_rename (temp_table pending) (saveAsName (app w)));
                    alert text ]).
Proof.
  intros Hstate.
  destruct (pending_variables _ _ Hstate) as [Hdata Hmodal].
  split.
  - intros Hname. unfold handleConfirmSaveAs. rewrite Hdata, Hname. reflexivity.
  - intros Hname Hserve Hfailed.
    rewrite (handleConfirmSaveAs_sent w pending reply b Hdata Hname Hserve).
    destruct reply as [message | data]; cbn in Hfailed; [| rewrite Hfailed];
      unfold emit; expose; rewrite <- app_assoc;
      (repeat split; [exact Hstate | eexists; reflexivity]).
Qed.

(** X24. A Commit that the backend accepts: the machine returns to Idle,
    the chat gets '✅ 已覆盖表格 "<tab>"', and after the overwrite the
    table list is refreshed and the active table's view reloaded, those
    three requests in that order and no other, whatever the two reloads
    return. *)
Theorem overwrite_success_commits
    (w : World) (pending : ConfirmationRequest) (tab : string)
    (data : ResolveReply) (b : Backend) :
  confirmationState (app w) = Some (PendingConfirmation pending) ->
  activeTab (app w) = Some tab ->
  tab <> EmptyString ->
  serve (POST_table_overwrite (temp_table pending) tab) (backend w) = (Replied data, b) ->
  resolveSuccess data = true ->
  confirmationState (app (snd (handleConfirmOverwrite w))) = Some Idle
  /\ messages (app (snd (handleConfirmOverwrite w)))
     = messages (app w) ++ [assistant ("✅ 已覆盖表格 " ++ dquote ++ tab ++ dquote)]
  /\ requests (trace (snd (handleConfirmOverwrite w)))
     = requests (trace w)
         ++ [ POST_table_overwrite (temp_table pending) tab;
              GET_tables;
              POST_data_view tab 0 10000 ].
Proof.
  intros Hstate Htab Hnonempty Hserve Hsuccess.
  destruct (pending_variables _ _ Hstate) as [Hdata Hmodal].
  rewrite (handleConfirmOverwrite_sent w pending tab (Replied data) b
             Hdata Htab Hnonempty Hserve).
  rewrite Hsuccess. unfold bind, update. expose.
  match goal with
  | |- context [loadTables (Some tab) ?w0] => set (w1 := w0)
  end.
  assert (Hpresent : present (Some tab) = true).
  { cbn. apply String.eqb_neq in Hnonempty. now rewrite Hnonempty. }
  destruct (loadTables_requests_with_tab (Some tab) w1 Hpresent) as (Hreq1 & _ & _).
  pose proof (loadTables_keeps_outsideTables (Some tab) w1) as Hkeep1.
  destruct (loadTables (Some tab) w1) as [u1 w2]. cbn [snd] in Hreq1, Hkeep1 |- *.
  pose proof (loadTableData_requests tab w2) as Hreq2.
  pose proof (loadTableData_keeps_outsideView tab w2) as Hkeep2.
  destruct (loadTableData tab w2) as [u2 w3]. cbn [snd] in Hreq2, Hkeep2 |- *.
  unfold outsideTables in Hkeep1. unfold outsideView in Hkeep2.
  injection Hkeep1 as Hm1 _ _ Hc1 Hs1 _.
  injection Hkeep2 as Hm2 _ _ _ Hc2 Hs2 _.
  subst w1. expose in Hm1. expose in Hc1. expose in Hs1. expose in Hreq1.
  repeat split.
  - unfold confirmationState. now rewrite Hc2, Hc1, Hs2, Hs1.
  - rewrite Hm2, Hm1. reflexivity.
  - rewrite Hreq2, Hreq1, requests_snoc, <- !app_assoc. reflexivity.
Qed.

(** X25. A Save-As that the backend accepts while a table is active: the
    machine returns to Idle, the chat gets '✅ 已保存为新表 "<name>"', and
    after the rename the table list is refreshed and the view of the new
    table loaded, those three requests in that order and no other; the
    active tab ends as the new name whatever the two reloads return.
    (With a table active [loadTables] starts no load of its own, so the
    view of the new table is the only view load.) *)
Theorem saveAs_success_switches_to_new_table
    (w : World) (pending : ConfirmationRequest) (tab : string)
    (data : ResolveReply) (b : Backend) :
  confirmationState (app w) = Some (PendingConfirmation pending) ->
  activeTab (app w) = Some tab ->
  tab <> EmptyString ->
  saveAsName (app w) <> EmptyString ->
  serve (POST_table_rename (temp_table pending) (saveAsName (app w))) (backend w)
  = (Replied data, b) ->
  resolveSuccess data = true ->
  confirmationState (app (snd (handleConfirmSaveAs w))) = Some Idle
  /\ activeTab (app (snd (handleConfirmSaveAs w))) = Some (saveAsName (app w))
  /\ messages (app (snd (handleConfirmSaveAs w)))
     = messages (app w)
         ++ [assistant ("✅ 已保存为新表 " ++ dquote ++ saveAsName (app w) ++ dquote)]
  /\ requests (trace (snd (handleConfirmSaveAs w)))
     = requests (trace w)
         ++ [ POST_table_rename (temp_table pending) (saveAsName (app w));
              GET_tables;
              POST_data_view (saveAsName (app w)) 0 10000 ].
Proof.
  intros Hstate Hactive Hnonempty Hname Hserve Hsuccess.
  destruct (pending_variables _ _ Hstate) as [Hdata Hmodal].
  rewrite (handleConfirmSaveAs_sent w pending (Replied data) b Hdata Hname Hserve).
  rewrite Hsuccess, Hactive. unfold bind, update. expose.
  match goal with
  | |- context [loadTables (Some tab) ?w0] => set (w1 := w0)
  end.
  assert (Hpresent : present (Some tab) = true).
  { cbn. apply String.eqb_neq in Hnonempty. now rewrite Hnonempty. }
  destruct (loadTables_requests_with_tab (Some tab) w1 Hpresent) as (Hreq1 & _ & _).
  pose proof (loadTables_keeps_outsideTables (Some tab) w1) as Hkeep1.
  destruct (loadTables (Some tab) w1) as [u1 w2]. cbn [snd] in Hreq1, Hkeep1 |- *.
  match goal with
  | |- context [loadTableData ?n ?w0] => set (w3 := w0)
  end.
  pose proof (loadTableData_requests (saveAsName (app w)) w3) as Hreq2.
  pose proof (loadTableData_keeps_outsideView (saveAsName (app w)) w3) as Hkeep2.
  pose proof (loadTableData_activeTab (saveAsName (app w)) w3 eq_refl) as Htab.
  destruct (loadTableData (saveAsName (app w)) w3) as [u2 w4].
  cbn [snd] in Hreq2, Hkeep2, Htab |- *.
  unfold outsideTables in Hkeep1. unfold outsideView in Hkeep2.
  injection Hkeep1 as Hm1 _ _ Hc1 Hs1 _.
  injection Hkeep2 as Hm2 _ _ _ Hc2 Hs2 _.
  subst w3 w1. expose in Hm1. expose in Hc1. expose in Hs1. expose in Hreq1.
  expose in Hm2. expose in Hc2. expose in Hs2. expose in Hreq2.
  repeat split.
  - unfold confirmationState. now rewrite Hc2, Hc1, Hs2, Hs1.
  - exact Htab.
  - rewrite Hm2, Hm1. reflexivity.
  - rewrite Hreq2, Hreq1, requests_snoc, <- !app_assoc. reflexivity.
Qed.


End WithHost.

Lemma loaded_view_is_well_formed_witness :
  exists view,
    sheetData (app (snd (loadTableData "sales" (freshWorld serving)))) = [view]
    /\ activeTab (app (snd (loadTableData "sales" (freshWorld serving)))) = Some "sales"
    /\ viewName view = "sales"
    /\ (forall cell, In cell (celldata view) ->
                     r cell < row view /\ c cell < column_ view /\ v cell <> JNull)
    /\ (forall i col,
          nth_error ["a"] i = Some col ->
          In {| r := 0; c := i; v := JStr col; m := col |} (celldata view))
    /\ outsideView (app (snd (loadTableData "sales" (freshWorld serving))))
       = outsideView initialState.
Proof.
  exact (loaded_view_is_well_formed (host := tableHost) (freshWorld serving) "sales"
           {| viewSuccess := true;
              viewColumns := ["a"];
              viewRows := [[("a", JNum 1)]; [("a", JNull)]] |}
           serving eq_refl eq_refl).
Defined.

Lemma first_load_selects_first_table_witness :
  activeTab (app (snd (loadTables None (freshWorld serving)))) = Some "sales"
  /\ map name (tables (app (snd (loadTables None (freshWorld serving))))) = ["sales"]
  /\ requests (trace (snd (loadTables None (freshWorld serving))))
     = [] ++ [GET_tables; POST_data_view "sales" 0 10000].
Proof.
  exact (first_load_selects_first_table (host := tableHost) (freshWorld serving) None
           {| tablesSuccess := true; tablesData := [("sales", (2, 1)%Z)] |}
           serving "sales" (2, 1)%Z [] eq_refl eq_refl eq_refl eq_refl).
Defined.

Lemma notice_kinds_only_add_a_message_witness :
  exists text,
    snd (dispatchResponse None
           {| response_type := Some "error"; payloadAnswer := None;
              explanation := None; result := NoResult; payloadTempTable := None |}
           (freshWorld offline))
    = {| app :=
           setMessages
             (append {| role := "assistant"; content := text; loading := false;
                        responseType := Some "error" |})
             initialState;
         backend := offline;
         widget := None;
         trace := [] |}.
Proof.
  apply (notice_kinds_only_add_a_message (host := tableHost) None
           {| response_type := Some "error"; payloadAnswer := None;
              explanation := None; result := NoResult; payloadTempTable := None |}
           "error" (freshWorld offline)).
  - reflexivity.
  - cbn. tauto.
Defined.

Lemma data_without_temp_table_refreshes_witness :
  requests (trace (snd (dispatchResponse (Some "sales") committedPayload
                          (pendingWorld serving))))
  = [] ++ [GET_tables; POST_data_view "sales" 0 10000].
Proof.
  apply (data_without_temp_table_refreshes (host := tableHost)
           "sales" committedPayload (pendingWorld serving)).
  - reflexivity.
  - reflexivity.
  - discriminate.
Defined.

Lemma rows_result_is_rendered_witness :
  sheetData (app (snd (dispatchResponse None threeRowsPayload (freshWorld offline))))
  = [ {| viewName := "AI 结果";
         celldata :=
           [ {| r := 0; c := 0; v := JStr "a"; m := "a" |};
             {| r := 1; c := 0; v := JNum 1; m := "1" |};
             {| r := 2; c := 0; v := JNum 2; m := "2" |};
             {| r := 3; c := 0; v := JNum 3; m := "3" |} ];
         row := 50;
         column_ := 26 |} ]
  /\ sheetData (app (snd (dispatchResponse None fieldlessRowsPayload (freshWorld offline))))
     = [Sheet1]
  /\ map content
       (messages (app (snd (dispatchResponse None fieldlessRowsPayload
                              (freshWorld offline)))))
     = [ "欢迎使用 AI-Sheet Pro！请上传数据文件开始分析。";
         "💡 查询成功，返回 2 条结果" ].
Proof.
  split; [| split].
  - rewrite (rows_result_is_rendered (host := tableHost) None threeRowsPayload
               [[("a", JNum 1)]; [("a", JNum 2)]; [("a", JNum 3)]] (freshWorld offline)).
    + reflexivity.
    + cbn. intuition discriminate.
    + reflexivity.
    + reflexivity.
    + intros only Hone. discriminate Hone.
  - rewrite (rows_result_is_rendered (host := tableHost) None fieldlessRowsPayload
               [[]; [("a", JNum 1)]] (freshWorld offline)).
    + reflexivity.
    + cbn. intuition discriminate.
    + reflexivity.
    + reflexivity.
    + intros only Hone. discriminate Hone.
  - rewrite (rows_result_is_rendered (host := tableHost) None fieldlessRowsPayload
               [[]; [("a", JNum 1)]] (freshWorld offline)).
    + reflexivity.
    + cbn. intuition discriminate.
    + reflexivity.
    + reflexivity.
    + intros only Hone. discriminate Hone.
Defined.

Lemma blank_or_busy_send_is_ignored_witness :
  handleSendMessage (blankWorld serving) = (tt, blankWorld serving).
Proof.
  apply (blank_or_busy_send_is_ignored (host := tableHost) (blankWorld serving)).
  left. reflexivity.
Defined.



Lemma saveAs_failure_stays_pending_witness :
  app (snd (handleConfirmSaveAs (namingWorld refusing))) = app (namingWorld refusing).
Proof.
  destruct (saveAs_failure_stays_pending (host := tableHost)
              (namingWorld refusing) stagedRequest
              (Replied {| resolveSuccess := false; resolveMessage := PStr "locked" |})
              refusing eq_refl) as [_ Hfail].
  apply Hfail.
  - discriminate.
  - reflexivity.
  - reflexivity.
Defined.

Lemma overwrite_success_commits_witness :
  confirmationState (app (snd (handleConfirmOverwrite (pendingWorld serving))))
  = Some Idle.
Proof.
  apply (overwrite_success_commits (host := tableHost)
           (pendingWorld serving) stagedRequest "sales"
           {| resolveSuccess := true; resolveMessage := PStr "ok" |} serving).
  - reflexivity.
  - reflexivity.
  - discriminate.
  - reflexivity.
  - reflexivity.
Defined.

Lemma saveAs_success_switches_to_new_table_witness :
  activeTab (app (snd (handleConfirmSaveAs (namingWorld serving)))) = Some "copy"
  /\ requests (trace (snd (handleConfirmSaveAs (namingWorld serving))))
     = [ POST_table_rename "t_ai_temp_1" "copy";
         GET_tables;
         POST_data_view "copy" 0 10000 ].
Proof.
  destruct (saveAs_success_switches_to_new_table (host := tableHost)
              (namingWorld serving) stagedRequest "sales"
              {| resolveSuccess := true; resolveMessage := PStr "ok" |} serving)
    as (_ & Htab & _ & Hrequests).
  - reflexivity.
  - reflexivity.
  - discriminate.
  - discriminate.
  - reflexivity.
  - reflexivity.
  - split; [exact Htab | exact Hrequests].
Defined.


End ComponentMore.

(** ** The log monitor *)

Module DebugConsoleFacts.
Import Js Json App DebugConsole.

Lemma slice_last_length {A : Type} (n : nat) (items : list A) :
  List.length (slice_last n items) <= n.
Proof.
  unfold slice_last. rewrite length_skipn. lia.
Qed.

Lemma fetchLogs_bounded (net : string -> Fetched LogsReply) (st : Console) :
  List.length (logs st) <= 200 ->
  List.length (logs (fst (fetchLogs net st))) <= 200.
Proof.
  intros Hbound. unfold fetchLogs.
  destruct (net (logsUrl (lastId st))) as [message | json]; [exact Hbound |].
  destruct (logsSuccess json && (0 <? List.length (logsData json))%nat);
    [apply slice_last_length | exact Hbound].
Qed.

Lemma polls_bounded (nets : list (string -> Fetched LogsReply)) (st : Console) :
  List.length (logs st) <= 200 ->
  List.length (logs (polls nets st)) <= 200.
Proof.
  revert st.
  induction nets as [| net later IH]; intros st Hbound; cbn [polls].
  - exact Hbound.
  - apply IH. now apply fetchLogs_bounded.
Qed.

(** X27. However many polls run and whatever they fetch, the monitor never
    holds more than 200 log entries. *)
Theorem logs_never_exceed_200
    (nets : list (string -> Fetched LogsReply)) (mounted : bool) :
  List.length (logs (polls nets (initialConsole mounted))) <= 200.
Proof.
  apply polls_bounded. cbn. lia.
Qed.

(** X28. A successful poll that brings a batch of at most 200 entries
    shows the whole batch, in the order received, after the entries
    already shown, dropping only oldest entries to stay within 200; and the
    cursor moves to the id of the last entry of the batch. *)
Theorem fetched_batch_is_shown_last
    (net : string -> Fetched LogsReply) (st : Console)
    (json : LogsReply) (earlier : list Log) (newest : Log) :
  net (logsUrl (lastId st)) = Replied json ->
  logsSuccess json = true ->
  logsData json = earlier ++ [newest] ->
  List.length (logsData json) <= 200 ->
  lastId (fst (fetchLogs net st)) = logId newest
  /\ exists dropped kept,
       logs st = dropped ++ kept
       /\ logs (fst (fetchLogs net st)) = kept ++ logsData json.
Proof.
  intros Hnet Hsuccess Hdata Hsize.
  unfold fetchLogs. rewrite Hnet, Hsuccess.
  assert (Hnonempty : (0 <? List.length (logsData json))%nat = true).
  { apply Nat.ltb_lt. rewrite Hdata, length_app. cbn. lia. }
  rewrite Hnonempty. cbn [andb fst logs lastId]. split.
  - rewrite Hdata, map_app. cbn [map]. apply last_last.
  - exists (firstn (List.length (logs st ++ logsData json) - 200) (logs st)),
           (skipn (List.length (logs st ++ logsData json) - 200) (logs st)).
    split; [symmetry; apply firstn_skipn |].
    unfold slice_last. rewrite skipn_app.
    replace (List.length (logs st ++ logsData json) - 200 - List.length (logs st))
      with 0 by (rewrite length_app; lia).
    reflexivity.
Qed.

Lemma fetched_batch_is_shown_last_witness :
  lastId (fst (fetchLogs twoLogs (initialConsole true))) = PNum 2
  /\ exists dropped kept,
       [] = dropped ++ kept
       /\ logs (fst (fetchLogs twoLogs (initialConsole true)))
          = kept ++ [sampleLog 1; sampleLog 2].
Proof.
  apply (fetched_batch_is_shown_last twoLogs (initialConsole true)
           {| logsSuccess := true; logsData := [sampleLog 1; sampleLog 2] |}
           [sampleLog 1] (sampleLog 2)).
  - reflexivity.
  - reflexivity.
  - reflexivity.
  - cbn. lia.
Defined.

End DebugConsoleFacts.

(** ** The Electron bridge *)

Module IpcFacts.
Import Js Json Ipc.

(** X29. Inside Electron a renderer call reaches the Python server exactly
    once: [get] as a GET of the server url followed by the endpoint,
    without body, and [post] as a POST there with the data; and it never
    throws: the caller gets [success: true] with the response data when
    the HTTP call resolves and [success: false] with the error's message
    when it rejects.  Outside Electron neither makes any HTTP request;
    both warn and return the failure 'Not in Electron'. *)
Theorem renderer_calls_reach_the_server_once
    (axios : AxiosConfig -> AxiosOutcome) (endpoint : string) (data : option Json) :
  get true axios endpoint
  = (resultOf (axios {| method := "GET";
                        url := "http://127.0.0.1:8000" ++ endpoint;
                        body := None |}),
     [http {| method := "GET";
              url := "http://127.0.0.1:8000" ++ endpoint;
              body := None |}])
  /\ post true axios endpoint data
     = (resultOf (axios {| method := "POST";
                           url := "http://127.0.0.1:8000" ++ endpoint;
                           body := data |}),
        [http {| method := "POST";
                 url := "http://127.0.0.1:8000" ++ endpoint;
                 body := data |}])
  /\ get false axios endpoint
     = ({| success := false; data := None; error := Some "Not in Electron" |},
        [console_warn "Not running in Electron environment"])
  /\ post false axios endpoint data
     = ({| success := false; data := None; error := Some "Not in Electron" |},
        [console_warn "Not running in Electron environment"]).
Proof.
  unfold get, post, invoke, api_request, resultOf. cbn [negb String.eqb].
  split; [| split; [| split; reflexivity]].
  - now destruct (axios _).
  - now destruct (axios _).
Qed.

End IpcFacts.
